(** * Instant Site Analysis: a model of [app.py]

    The application is a Streamlit script: every user interaction re-runs the
    script from the top, with [st.session_state] carried from one run to the
    next.  The script geocodes an address ([geocode_address]), asks the USGS
    catalogue for nearby earthquakes ([get_nearby_earthquakes]), renders the
    report and, on request, asks a generative model for a summary
    ([generate_ai_summary]).

    The model below follows the script statement by statement.  Python values
    are an inductive type, exceptions are explicit, the session state and the
    sequence of visible effects (widgets drawn, outbound calls made) are
    threaded through a small state-and-exception monad.  The outside world
    (the HTTP endpoints, the generative service) is an argument of every
    function, so that statements quantify over everything it can answer. *)

From Stdlib Require Import List String Ascii ZArith Bool Lia.
From Stdlib Require Import DecimalString SpecFloat.
Import ListNotations.
Local Open Scope string_scope.
Local Open Scope Z_scope.

Set Implicit Arguments.
#[local] Set Warnings "-register-all".

(* ===================================================================== *)
(** * Python values *)
(* ===================================================================== *)

(** A Python [float] is an IEEE 754 binary64 number. *)
Definition float := spec_float.

Definition prec64 : Z := 53.
Definition emax64 : Z := 1024.

(** The values [json.loads] can build, which are also the values that end up
    in the cells of the report.  A [str] is kept as its UTF-8 bytes; a [dict]
    is kept as its items (as [json.loads] leaves them the keys are distinct). *)
Inductive pyval : Type :=
| PNone
| PBool (b : bool)
| PInt (z : Z)
| PFloat (f : float)
| PStr (s : string)
| PList (l : list pyval)
| PDict (d : list (string * pyval)).

(** ** Exceptions *)

Inductive exn_class : Type :=
(* requests.exceptions.RequestException and its subclasses; the
   JSONDecodeError is the one of requests (an older requests lets the
   ValueError of the json module through instead) *)
| ConnectionError
| Timeout
| HTTPError
| TooManyRedirects
| JSONDecodeError
| RequestException
(* builtins and pandas *)
| KeyError
| IndexError
| TypeError
| ValueError
| OverflowError
| AttributeError
| OutOfBoundsDatetime
| OtherException (name : string).

(** An exception object: its class and what [str(e)] gives. *)
Record exn : Type := Exn { exn_class_of : exn_class; exn_str : string }.

(** [isinstance(e, requests.exceptions.RequestException)] *)
Definition is_RequestException (e : exn) : bool :=
  match exn_class_of e with
  | ConnectionError | Timeout | HTTPError | TooManyRedirects
  | JSONDecodeError | RequestException => true
  | _ => false
  end.

(** The result of evaluating an expression: a value, or a raised exception. *)
Inductive outcome (A : Type) : Type :=
| Ret (a : A)
| Raise (e : exn).
Arguments Ret {A} a.
Arguments Raise {A} e.

Definition obind {A B} (o : outcome A) (k : A -> outcome B) : outcome B :=
  match o with
  | Ret a => k a
  | Raise e => Raise e
  end.

Declare Scope outcome_scope.
Delimit Scope outcome_scope with outcome.
Notation "'let?' x ':=' o 'in' k" := (obind o (fun x => k))
  (at level 10, x pattern, o at level 100, k at level 200) : outcome_scope.
Local Open Scope outcome_scope.

(** ** Strings of numbers *)

(** [str(n)] for an [int]. *)
Definition str_of_int (z : Z) : string := NilZero.string_of_int (Z.to_int z).

Definition quote_key (k : string) : string := "'" ++ k ++ "'".

(** ** Truth values *)

Definition SFzero : float := S754_zero false.

(** [x != 0.0]: what [bool(x)] is for a float (a NaN is true). *)
Definition truthy_float (x : float) : bool := negb (SFeqb x SFzero).

Definition truthy (v : pyval) : bool :=
  match v with
  | PNone => false
  | PBool b => b
  | PInt z => negb (z =? 0)
  | PFloat f => truthy_float f
  | PStr s => negb (String.eqb s "")
  | PList l => match l with [] => false | _ => true end
  | PDict d => match d with [] => false | _ => true end
  end.

(** ** Subscripts *)

Fixpoint lookup {A} (k : string) (d : list (string * A)) : option A :=
  match d with
  | [] => None
  | (k', v) :: d' => if String.eqb k k' then Some v else lookup k d'
  end.

(** [v[k]] for a string [k]. *)
Definition getitem (v : pyval) (k : string) : outcome pyval :=
  match v with
  | PDict d =>
      match lookup k d with
      | Some x => Ret x
      | None => Raise (Exn KeyError (quote_key k))
      end
  | PList _ => Raise (Exn TypeError "list indices must be integers or slices, not str")
  | PStr _ => Raise (Exn TypeError "string indices must be integers, not 'str'")
  | _ => Raise (Exn TypeError "object is not subscriptable")
  end.

(** [v[i]] for a natural number [i] (the script only uses 0 and 1). *)
Definition getindex (v : pyval) (i : nat) : outcome pyval :=
  match v with
  | PList l =>
      match nth_error l i with
      | Some x => Ret x
      | None => Raise (Exn IndexError "list index out of range")
      end
  | PStr s =>
      match String.get i s with
      | Some c => Ret (PStr (String c EmptyString))
      | None => Raise (Exn IndexError "string index out of range")
      end
  | PDict _ => Raise (Exn KeyError (str_of_int (Z.of_nat i)))
  | _ => Raise (Exn TypeError "object is not subscriptable")
  end.

(** [d.get(k)], on the only kind of value that reaches it in the script. *)
Definition dict_get (v : pyval) (k : string) : outcome pyval :=
  match v with
  | PDict d =>
      match lookup k d with
      | Some x => Ret x
      | None => Ret PNone
      end
  | _ => Raise (Exn AttributeError "object has no attribute 'get'")
  end.

Fixpoint chars (s : string) : list pyval :=
  match s with
  | EmptyString => []
  | String c s' => PStr (String c EmptyString) :: chars s'
  end.

(** What [for x in v] goes through. *)
Definition iterate (v : pyval) : outcome (list pyval) :=
  match v with
  | PList l => Ret l
  | PDict d => Ret (map (fun kv => PStr (fst kv)) d)
  | PStr s => Ret (chars s)
  | _ => Raise (Exn TypeError "object is not iterable")
  end.

(** ** Floats from integers *)

(** [float(n)]: the nearest binary64, or [OverflowError]. *)
Definition float_of_int (z : Z) : outcome float :=
  match binary_normalize prec64 emax64 z 0 false with
  | S754_infinity _ => Raise (Exn OverflowError "int too large to convert to float")
  | f => Ret f
  end.

(* ===================================================================== *)
(** * Library behaviour left open *)
(* ===================================================================== *)

(** A pandas timestamp: nanoseconds since the epoch, or [NaT]. *)
Inductive timestamp : Type :=
| Timestamp (ns : Z)
| NaT.

(** The script leans on Python and pandas for a few conversions.  Where the
    conversion is plain (an integer, a string taken as it is, a numeric
    column) it is written out below; the remaining cases are fields of this
    class, so that every statement holds whatever the libraries do there. *)
Class Runtime : Type := {
  (** [float(s)] for a [str] *)
  float_of_str : string -> outcome float;
  (** [str(v)] for a float, a list or a dict *)
  str_other : pyval -> string;
  (** [pd.to_datetime(v, unit='ms')] for anything but an [int] or [None] *)
  to_datetime_other : pyval -> outcome timestamp;
  (** [Series.max()] for a column holding something else than numbers and
      nulls *)
  series_max_other : list pyval -> outcome pyval
}.

Section Conversions.
Context {RT : Runtime}.

(** [float(v)] *)
Definition py_float (v : pyval) : outcome float :=
  match v with
  | PFloat f => Ret f
  | PInt z => float_of_int z
  | PBool b => float_of_int (if b then 1 else 0)
  | PStr s => float_of_str s
  | _ => Raise (Exn TypeError "float() argument must be a string or a real number")
  end.

(** [str(v)], which is what an f-string field [{v}] inserts. *)
Definition py_str (v : pyval) : string :=
  match v with
  | PNone => "None"
  | PBool b => if b then "True" else "False"
  | PInt z => str_of_int z
  | PStr s => s
  | _ => str_other v
  end.

(** [pd.to_datetime(v, unit='ms')]: an integer count of milliseconds becomes
    the timestamp of that instant, which pandas stores in nanoseconds in a
    signed 64-bit integer whose least value stands for [NaT]. *)
Definition to_datetime_ms (v : pyval) : outcome timestamp :=
  match v with
  | PInt ms =>
      let ns := ms * 1000000 in
      if (- 2 ^ 63 <? ns) && (ns <? 2 ^ 63) then Ret (Timestamp ns)
      else Raise (Exn OutOfBoundsDatetime "cannot convert input with unit 'ms'")
  | PNone => Ret NaT
  | _ => to_datetime_other v
  end.

End Conversions.

(* ===================================================================== *)
(** * Formatting a float with two decimals *)
(* ===================================================================== *)

(** The integer nearest to [n / d], ties going to the even one ([0 < d]). *)
Definition div_half_even (n d : Z) : Z :=
  let q := n / d in
  let r := n mod d in
  match 2 * r ?= d with
  | Lt => q
  | Gt => q + 1
  | Eq => if Z.even q then q else q + 1
  end.

(** The number of hundredths nearest to [m * 2^e]. *)
Definition hundredths (m : positive) (e : Z) : Z :=
  match e with
  | Zneg p => div_half_even (Zpos m * 100) (2 ^ Zpos p)
  | _ => Zpos m * 100 * 2 ^ e
  end.

Definition two_digits (n : Z) : string :=
  (if n <? 10 then "0" else "") ++ str_of_int n.

Definition sign_str (s : bool) : string := if s then "-" else "".

(** [format(x, '.2f')] for a float. *)
Definition format_2f (x : float) : string :=
  match x with
  | S754_nan => "nan"
  | S754_infinity s => sign_str s ++ "inf"
  | S754_zero s => sign_str s ++ "0.00"
  | S754_finite s m e =>
      let h := hundredths m e in
      sign_str s ++ str_of_int (h / 100) ++ "." ++ two_digits (h mod 100)
  end.

(** [format(v, '.2f')], the field [{v:.2f}] of an f-string. *)
Definition py_format_2f (v : pyval) : outcome string :=
  match v with
  | PFloat f => Ret (format_2f f)
  | PInt z => let? f := float_of_int z in Ret (format_2f f)
  | PBool b => let? f := float_of_int (if b then 1 else 0) in Ret (format_2f f)
  | PStr _ => Raise (Exn ValueError "Unknown format code 'f' for object of type 'str'")
  | _ => Raise (Exn TypeError "unsupported format string passed to __format__")
  end.

(* ===================================================================== *)
(** * The report: a pandas DataFrame *)
(* ===================================================================== *)

(** One record of the report, as [get_nearby_earthquakes] builds it. *)
Module Quake.
Record t : Type := Build {
    place : pyval;
    magnitude : pyval;
    time : timestamp;
    lat : pyval;
    lon : pyval
  }.
End Quake.

(** [pd.DataFrame(records)] is kept as the list of its records, in order;
    [pd.DataFrame()] is the empty list. *)
Definition DataFrame : Type := list Quake.t.

(** [df.empty] *)
Definition empty (df : DataFrame) : bool :=
  match df with [] => true | _ => false end.

(** [len(df)] *)
Definition len (df : DataFrame) : Z := Z.of_nat (List.length df).

(** [df['magnitude']] *)
Definition magnitudes (df : DataFrame) : list pyval := map Quake.magnitude df.

Definition is_nan (x : float) : bool :=
  match x with S754_nan => true | _ => false end.

(** The greatest of the floats that are not NaN, the earliest one among
    equals; NaN when there is none. *)
Fixpoint nanmax (xs : list float) : float :=
  match xs with
  | [] => S754_nan
  | x :: xs' =>
      let m := nanmax xs' in
      if is_nan x then m
      else if is_nan m then x
      else if SFltb x m then m else x
  end.

(** The float a cell of a numeric column stands for: a null is a NaN. *)
Definition numeric_cell (v : pyval) : option (outcome float) :=
  match v with
  | PFloat f => Some (Ret f)
  | PInt z => Some (float_of_int z)
  | PNone => Some (Ret S754_nan)
  | _ => None
  end.

Fixpoint numeric_column (col : list pyval) : option (outcome (list float)) :=
  match col with
  | [] => Some (Ret [])
  | v :: col' =>
      match numeric_cell v, numeric_column col' with
      | Some ox, Some oxs =>
          Some (let? x := ox in let? xs := oxs in Ret (x :: xs))
      | _, _ => None
      end
  end.

Section Series.
Context {RT : Runtime}.

(** [Series.max()], which skips nulls. *)
Definition series_max (col : list pyval) : outcome pyval :=
  match numeric_column col with
  | Some oxs => let? xs := oxs in Ret (PFloat (nanmax xs))
  | None => series_max_other col
  end.

End Series.

(* ===================================================================== *)
(** * The outside world *)
(* ===================================================================== *)

(** The two addresses the script requests.  Each is an f-string with a fixed
    text; it is kept by the values put into it. *)
Inductive url : Type :=
(** [f"https://geocode.maps.co/search?q={address}"] *)
| geocode_url (address : string)
(** [f"https://earthquake.usgs.gov/fdsnws/event/1/query?format=geojson&latitude={lat}&longitude={lon}&maxradiuskm={radius_km}&orderby=time"] *)
| usgs_url (lat lon : float) (radius_km : Z).

(** What [requests.get] hands back when it does not raise. *)
Record response : Type := Response {
  status_code : Z;
  reason : string;
  response_url : string;
  (** what [response.json()] evaluates to *)
  json : outcome pyval
}.

(** [response.raise_for_status()] *)
Definition raise_for_status (r : response) : outcome unit :=
  if (400 <=? status_code r) && (status_code r <? 500) then
    Raise (Exn HTTPError (str_of_int (status_code r) ++ " Client Error: "
                          ++ reason r ++ " for url: " ++ response_url r))
  else if (500 <=? status_code r) && (status_code r <? 600) then
    Raise (Exn HTTPError (str_of_int (status_code r) ++ " Server Error: "
                          ++ reason r ++ " for url: " ++ response_url r))
  else Ret tt.

(** The services the script talks to, as they answer during one run. *)
Record services : Type := Services {
  (** [requests.get(url, timeout=10)] *)
  http_get : url -> outcome response;
  (** [genai.GenerativeModel(name).generate_content(prompt).text] *)
  generate_text : string -> string -> outcome string
}.

(* ===================================================================== *)
(** * Session state and visible effects *)
(* ===================================================================== *)

(** [st.session_state]: a field is [None] while the key is absent. *)
Module Session.
Record t : Type := Build {
    lat : option float;
    lon : option float;
    full_address : option pyval;
    df : option DataFrame;
    summary : option string
  }.
Definition initial : t := Build None None None None None.
Definition set_lat (x : float) (s : t) : t :=
    Build (Some x) (lon s) (full_address s) (df s) (summary s).
Definition set_lon (x : float) (s : t) : t :=
    Build (lat s) (Some x) (full_address s) (df s) (summary s).
Definition set_full_address (x : pyval) (s : t) : t :=
    Build (lat s) (lon s) (Some x) (df s) (summary s).
Definition set_df (x : DataFrame) (s : t) : t :=
    Build (lat s) (lon s) (full_address s) (Some x) (summary s).
Definition set_summary (x : string) (s : t) : t :=
    Build (lat s) (lon s) (full_address s) (df s) (Some x).
End Session.

(** What a run does that can be seen from outside, in the order it happens:
    the outbound calls and the Streamlit elements drawn. *)
Inductive event : Type :=
| requests_get (u : url) (timeout : Z)
| generate_content (model prompt : string)
| st_set_page_config (page_title page_icon layout : string)
| st_title (body : string)
| st_write (body : string)
| st_text_input (label value : string)
| st_button (label : string)
| st_spinner (text : string)
| st_error (body : string)
| st_success (body : string)
| st_info (body : string)
| st_warning (body : string)
| st_subheader (body : string)
| st_dataframe (data : DataFrame)
| st_map (points : list (pyval * pyval)) (zoom : Z)
(** [data] is the frame whose [to_csv(index=False).encode('utf-8')] is offered *)
| st_download_button (label : string) (data : DataFrame) (file_name mime : string)
| st_markdown (body : string).

Record world : Type := World {
  session : Session.t;
  shown : list event
}.

(** ** The monad of the script *)

Definition M (A : Type) : Type := world -> outcome A * world.

Definition ret {A} (a : A) : M A := fun w => (Ret a, w).

Definition bind {A B} (m : M A) (k : A -> M B) : M B :=
  fun w =>
    match m w with
    | (Ret a, w') => k a w'
    | (Raise e, w') => (Raise e, w')
    end.

Declare Scope script_scope.
Delimit Scope script_scope with script.
Notation "x <- m ;; k" := (bind m (fun x => k))
  (at level 61, m at next level, right associativity) : script_scope.
Notation "m ;; k" := (bind m (fun _ => k))
  (at level 61, right associativity) : script_scope.
Local Open Scope script_scope.

(** An expression that touches neither the session nor the screen. *)
Definition lift {A} (o : outcome A) : M A := fun w => (o, w).

Definition emit (ev : event) : M unit :=
  fun w => (Ret tt, World (session w) (shown w ++ [ev])).

Definition get_session : M Session.t := fun w => (Ret (session w), w).

Definition update_session (f : Session.t -> Session.t) : M unit :=
  fun w => (Ret tt, World (f (session w)) (shown w)).

(** [st.session_state.<name>] read: [AttributeError] when the key is absent. *)
Definition read_attr {A} (name : string) (field : Session.t -> option A) : M A :=
  fun w =>
    match field (session w) with
    | Some a => (Ret a, w)
    | None => (Raise (Exn AttributeError
                 ("st.session_state has no attribute " ++ quote_key name)), w)
    end.

(** [try: body  except <catches> as e: handler e] *)
Definition try_except {A} (body : M A) (catches : exn -> bool)
    (handler : exn -> M A) : M A :=
  fun w =>
    match body w with
    | (Ret a, w') => (Ret a, w')
    | (Raise e, w') => if catches e then handler e w' else (Raise e, w')
    end.

(* ===================================================================== *)
(** * The script *)
(* ===================================================================== *)

(** The widgets the user can press. *)
Inductive button : Type :=
| AnalyzeSite
| GenerateAISummary
| DownloadReport.

(** What the user did to cause a run: the content of the address box, and the
    button pressed if the run comes from a press. *)
Record interaction : Type := Interaction {
  address_box : string;
  pressed : option button
}.

Definition button_eqb (a b : button) : bool :=
  match a, b with
  | AnalyzeSite, AnalyzeSite
  | GenerateAISummary, GenerateAISummary
  | DownloadReport, DownloadReport => true
  | _, _ => false
  end.

Section App.
Context {RT : Runtime}.

(** [st.secrets], a mapping that may lack the key *)
Variable secrets : list (string * string).
(** the services, as they answer during the run *)
Variable env : services.

(** [try: genai.configure(api_key=st.secrets["GOOGLE_API_KEY"]) ...] *)
Definition API_KEY_CONFIGURED : bool :=
  match lookup "GOOGLE_API_KEY" secrets with
  | Some _ => true
  | None => false
  end.

(** [requests.get(url, timeout=10)] *)
Definition get (u : url) : M response :=
  emit (requests_get u 10) ;; lift (http_get env u).

Definition geocode_address (address : string)
  : M (option float * option float * pyval) :=
  let url := geocode_url address in
  returned <-
    try_except
      (response <- get url ;;
       lift (raise_for_status response) ;;
       matches <- lift (json response) ;;
       if truthy matches then
         data <- lift (let? j := json response in getindex j 0) ;;
         lat <- lift (let? v := getitem data "lat" in py_float v) ;;
         lon <- lift (let? v := getitem data "lon" in py_float v) ;;
         display_name <- lift (dict_get data "display_name") ;;
         ret (Some (Some lat, Some lon, display_name))
       else ret None)
      is_RequestException
      (fun e => emit (st_error ("Geocoding API failed: " ++ exn_str e)) ;;
                ret None) ;;
  match returned with
  | Some r => ret r
  | None => ret (None, None, PNone)
  end.

(** The record appended for one feature. *)
Definition earthquake_of (feature : pyval) : outcome Quake.t :=
  let? properties := getitem feature "properties" in
  let? coords := (let? g := getitem feature "geometry" in getitem g "coordinates") in
  let? place := getitem properties "place" in
  let? magnitude := getitem properties "mag" in
  let? time := (let? t := getitem properties "time" in to_datetime_ms t) in
  let? lat := getindex coords 1 in
  let? lon := getindex coords 0 in
  Ret (Quake.Build place magnitude time lat lon).

(** [for feature in data: earthquakes.append({...})] *)
Fixpoint append_earthquakes (data : list pyval) (earthquakes : list Quake.t)
  : outcome (list Quake.t) :=
  match data with
  | [] => Ret earthquakes
  | feature :: data' =>
      let? q := earthquake_of feature in
      append_earthquakes data' (earthquakes ++ [q])
  end.

Definition get_nearby_earthquakes (lat lon : float) (radius_km : Z)
  : M DataFrame :=
  let url := usgs_url lat lon radius_km in
  returned <-
    try_except
      (response <- get url ;;
       lift (raise_for_status response) ;;
       data <- lift (let? j := json response in getitem j "features") ;;
       earthquakes <- lift (let? features := iterate data in
                            append_earthquakes features []) ;;
       ret (Some earthquakes))
      is_RequestException
      (fun e => emit (st_error ("USGS Earthquake API failed: " ++ exn_str e)) ;;
                ret None) ;;
  match returned with
  | Some df => ret df
  | None => ret []
  end.

Definition not_configured_message : string :=
  "AI model is not configured. Please add your GOOGLE_API_KEY to the Streamlit secrets.".

Definition generate_ai_summary (address_name : pyval) (df : DataFrame)
  : M string :=
  if negb API_KEY_CONFIGURED then ret not_configured_message
  else
    let model := "gemini-1.5-flash-latest" in
    prompt <-
      (if empty df then
         ret ("Write a brief, one-paragraph site analysis summary for the location: "
              ++ py_str address_name
              ++ ". State that no recent seismic activity was found in the immediate vicinity, which is a positive sign for geological stability.")
       else
         let num_quakes := len df in
         max_mag <- lift (series_max (magnitudes df)) ;;
         largest <- lift (py_format_2f max_mag) ;;
         ret ("Write a brief, one-paragraph site analysis summary for the location: "
              ++ py_str address_name ++ ". "
              ++ "The analysis found " ++ str_of_int num_quakes
              ++ " recent seismic events nearby. "
              ++ "The largest magnitude was " ++ largest ++ ". "
              ++ "Briefly explain what this might mean for a site risk assessment in a professional but easy-to-understand tone.")) ;;
    try_except
      (emit (generate_content model prompt) ;;
       lift (generate_text env model prompt))
      (fun _ => true)
      (fun e => ret ("An error occurred with the AI model: " ++ exn_str e)).

(** [st.button(label)]: drawn, and true in the run its press caused. *)
Definition button_pressed (inp : interaction) (label : string) (b : button)
  : M bool :=
  emit (st_button label) ;;
  ret (match pressed inp with
       | Some b' => button_eqb b b'
       | None => false
       end).

(** [if st.button("Analyze Site"): ...] *)
Definition analyze_site (inp : interaction) : M unit :=
  let address := address_box inp in
  clicked <- button_pressed inp "Analyze Site" AnalyzeSite ;;
  if clicked then
    emit (st_spinner "Analyzing...") ;;
    r <- geocode_address address ;;
    let '(lat, lon, full_address) := r in
    match lat, lon with
    | Some lat, Some lon =>
        if truthy_float lat && truthy_float lon then
          update_session (Session.set_lat lat) ;;
          update_session (Session.set_lon lon) ;;
          update_session (Session.set_full_address full_address) ;;
          df <- get_nearby_earthquakes lat lon 100 ;;
          update_session (Session.set_df df) ;;
          emit (st_success ("Successfully analyzed: **" ++ py_str full_address ++ "**"))
        else ret tt
    | _, _ => ret tt
    end
  else ret tt.

Definition point_of (q : Quake.t) : pyval * pyval := (Quake.lat q, Quake.lon q).

(** [if 'df' in st.session_state: ...] *)
Definition report_section (inp : interaction) : M unit :=
  s <- get_session ;;
  match Session.df s with
  | None => ret tt
  | Some df =>
      emit (st_subheader "Seismic Activity Report") ;;
      (if negb (empty df) then
         emit (st_write ("Found **" ++ str_of_int (len df)
                         ++ "** recent seismic events within 100km.")) ;;
         emit (st_dataframe df) ;;
         lat <- read_attr "lat" Session.lat ;;
         lon <- read_attr "lon" Session.lon ;;
         emit (st_map (map point_of df ++ [(PFloat lat, PFloat lon)]) 7) ;;
         emit (st_download_button "Download Report as CSV" df
                 "seismic_report.csv" "text/csv")
       else
         emit (st_info "No recent seismic activity found in the vicinity.") ;;
         lat <- read_attr "lat" Session.lat ;;
         lon <- read_attr "lon" Session.lon ;;
         emit (st_map [(PFloat lat, PFloat lon)] 7)) ;;
      emit (st_subheader "🤖 AI-Powered Summary") ;;
      if negb API_KEY_CONFIGURED then
        emit (st_warning "AI features are disabled. Please configure your Google API Key in secrets.toml.")
      else
        clicked <- button_pressed inp "Generate AI Summary" GenerateAISummary ;;
        if clicked then
          emit (st_spinner "AI is thinking...") ;;
          full_address <- read_attr "full_address" Session.full_address ;;
          df <- read_attr "df" Session.df ;;
          summary <- generate_ai_summary full_address df ;;
          update_session (Session.set_summary summary)
        else ret tt
  end.

(** [if 'summary' in st.session_state: st.markdown(...)] *)
Definition summary_section : M unit :=
  s <- get_session ;;
  match Session.summary s with
  | Some summary => emit (st_markdown summary)
  | None => ret tt
  end.

(** One run of the script, top to bottom. *)
Definition script (inp : interaction) : M unit :=
  emit (st_set_page_config "Instant Site Analysis" "🗺️" "wide") ;;
  emit (st_title "🗺️ Instant Site Analysis Report") ;;
  emit (st_write "Enter a U.S. address to pull live data and generate an AI-powered summary. This demonstrates rapid prototyping with real-time data analysis.") ;;
  emit (st_text_input "Enter a U.S. Address:" (address_box inp)) ;;
  analyze_site inp ;;
  report_section inp ;;
  summary_section.

End App.

(** A session: the runs follow one another, each starting from the session
    state the previous one left (also when that one stopped on an uncaught
    exception), with nothing yet drawn.  The services may answer differently
    from run to run. *)
Definition run {RT : Runtime} (secrets : list (string * string))
    (env : services) (inp : interaction) (s : Session.t)
  : outcome unit * world :=
  script secrets env inp (World s []).

Fixpoint runs {RT : Runtime} (secrets : list (string * string))
    (steps : list (services * interaction)) (s : Session.t)
  : list (outcome unit * world) :=
  match steps with
  | [] => []
  | (env, inp) :: steps' =>
      let r := run secrets env inp s in
      r :: runs secrets steps' (session (snd r))
  end.

(** ** The parts of the report section, by name *)

(** The two halves of the report section: the report itself, and the
    control of the narrative. *)
Definition draw_report (df : DataFrame) : M unit :=
  if negb (empty df) then
    emit (st_write ("Found **" ++ str_of_int (len df)
                    ++ "** recent seismic events within 100km.")) ;;
    emit (st_dataframe df) ;;
    lat <- read_attr "lat" Session.lat ;;
    lon <- read_attr "lon" Session.lon ;;
    emit (st_map (map point_of df ++ [(PFloat lat, PFloat lon)]) 7) ;;
    emit (st_download_button "Download Report as CSV" df
            "seismic_report.csv" "text/csv")
  else
    emit (st_info "No recent seismic activity found in the vicinity.") ;;
    lat <- read_attr "lat" Session.lat ;;
    lon <- read_attr "lon" Session.lon ;;
    emit (st_map [(PFloat lat, PFloat lon)] 7).

Definition summary_control {RT : Runtime} (secrets : list (string * string))
    (env : services) (inp : interaction) : M unit :=
  if negb (API_KEY_CONFIGURED secrets) then
    emit (st_warning "AI features are disabled. Please configure your Google API Key in secrets.toml.")
  else
    clicked <- button_pressed inp "Generate AI Summary" GenerateAISummary ;;
    if clicked then
      emit (st_spinner "AI is thinking...") ;;
      full_address <- read_attr "full_address" Session.full_address ;;
      df <- read_attr "df" Session.df ;;
      summary <- generate_ai_summary secrets env full_address df ;;
      update_session (Session.set_summary summary)
    else ret tt.

(** The report with its two subheaders, up to the control of the narrative. *)
Definition report_head (df : DataFrame) : M unit :=
  emit (st_subheader "Seismic Activity Report") ;;
  draw_report df ;;
  emit (st_subheader "🤖 AI-Powered Summary").

(* ===================================================================== *)
(** * A runtime to run the model on concrete inputs *)
(* ===================================================================== *)

(** Decimal literals [[+-]digits[.digits]] are read as [float] reads them:
    the literal is the quotient of two integers, and the quotient is rounded
    once, to the nearest binary64, ties to even. *)
Module Decimal.

Definition digit (c : ascii) : option Z :=
    let n := Z.of_N (N_of_ascii c) in
    if (48 <=? n) && (n <=? 57) then Some (n - 48) else None.

  (** Reads digits: the number read so far, how many digits, what is left. *)
Fixpoint digits (s : string) (acc : Z) (count : nat) : Z * nat * string :=
    match s with
    | EmptyString => (acc, count, s)
    | String c s' =>
        match digit c with
        | Some d => digits s' (10 * acc + d) (S count)
        | None => (acc, count, s)
        end
    end.

Definition signed (s : string) : bool * string :=
    match s with
    | String "-" s' => (true, s')
    | String "+" s' => (false, s')
    | _ => (false, s)
    end.

Definition quotient (neg : bool) (num : Z) (den : positive) : float :=
    match num with
    | Zpos n =>
        SFdiv prec64 emax64 (S754_finite neg n 0) (S754_finite false den 0)
    | _ => S754_zero neg
    end.

Definition invalid (s : string) : exn :=
    Exn ValueError ("could not convert string to float: " ++ quote_key s).

Definition parse (s : string) : outcome float :=
    let '(neg, body) := signed s in
    let '(int_part, n_int, rest) := digits body 0 0 in
    match rest with
    | EmptyString =>
        match n_int with
        | O => Raise (invalid s)
        | _ => Ret (quotient neg int_part 1)
        end
    | String "." frac =>
        let '(mantissa, n_all, rest') := digits frac int_part n_int in
        match rest', n_all with
        | EmptyString, S _ =>
            Ret (quotient neg mantissa
                   (Z.to_pos (10 ^ Z.of_nat (n_all - n_int))))
        | _, _ => Raise (invalid s)
        end
    | _ => Raise (invalid s)
    end.

End Decimal.

(** For what the class leaves open beyond the decimal literals, this runtime
    raises, or writes a placeholder where a string is expected; the
    scenarios below stay clear of those cases. *)
#[export] Instance reference_runtime : Runtime := {
  float_of_str := Decimal.parse;
  str_other := fun _ => "<object>";
  to_datetime_other := fun _ =>
    Raise (Exn TypeError "to_datetime: unsupported input");
  series_max_other := fun _ =>
    Raise (Exn TypeError "max: unsupported column")
}.

(* ===================================================================== *)
(** * Vocabulary of the statements *)
(* ===================================================================== *)


Definition is_request (ev : event) : bool :=
  match ev with requests_get _ _ => true | _ => false end.

Definition is_usgs_request (ev : event) : bool :=
  match ev with requests_get (usgs_url _ _ _) _ => true | _ => false end.

Definition is_generate_content (ev : event) : bool :=
  match ev with generate_content _ _ => true | _ => false end.


Definition disabled_warning : event :=
  st_warning "AI features are disabled. Please configure your Google API Key in secrets.toml.".

Definition summary_subheader : event := st_subheader "🤖 AI-Powered Summary".

(** The [RequestException] with which a request fails, when it does:
    [requests.get] raises one (no connection, timeout, ...), or the status
    is one that [raise_for_status] turns into an [HTTPError]. *)
Definition request_failure (o : outcome response) : option exn :=
  match o with
  | Raise e => if is_RequestException e then Some e else None
  | Ret r =>
      match raise_for_status r with
      | Raise e => Some e
      | Ret _ => None
      end
  end.

(** The endpoint answered, with an acceptable status, an empty array. *)
Definition zero_matches (o : outcome response) : Prop :=
  exists r, o = Ret r /\ raise_for_status r = Ret tt /\ json r = Ret (PList []).

(** The magnitude column holds numbers and nulls: [xs] are its values as
    floats, a null being a NaN. *)
Definition numeric_magnitudes (df : DataFrame) (xs : list float) : Prop :=
  numeric_column (magnitudes df) = Some (Ret xs).

(** A feature of the catalogue's GeoJSON, read the way the script reads it:
    [properties.place], [properties.mag], [properties.time] in milliseconds
    and the first two [geometry.coordinates]. *)
Record feature_fields : Type := Fields {
  f_place : pyval;
  f_mag : pyval;
  f_time_ms : Z;
  f_coord0 : pyval;
  f_coord1 : pyval
}.

Definition feature_has (feature : pyval) (x : feature_fields) : Prop :=
  exists properties geometry coordinates,
    getitem feature "properties" = Ret properties /\
    getitem properties "place" = Ret (f_place x) /\
    getitem properties "mag" = Ret (f_mag x) /\
    getitem properties "time" = Ret (PInt (f_time_ms x)) /\
    - 2 ^ 63 < f_time_ms x * 1000000 < 2 ^ 63 /\
    getitem feature "geometry" = Ret geometry /\
    getitem geometry "coordinates" = Ret coordinates /\
    getindex coordinates 0 = Ret (f_coord0 x) /\
    getindex coordinates 1 = Ret (f_coord1 x).




(** ** Effects of a piece of script *)

Section Effects.
Variable T : list event -> Prop.
Variable R : Session.t -> Session.t -> Prop.

(** Whatever the result, [m] adds to what is shown a sequence of events that
    [T] accepts, takes the session state from [s] to some [s'] with
    [R s s'], and returns, when it returns, a value that [Q] accepts. *)
Definition within {A} (Q : A -> Prop) (m : M A) : Prop :=
  forall w, exists evs,
    shown (snd (m w)) = (shown w ++ evs)%list /\
    T evs /\
    R (session w) (session (snd (m w))) /\
    (forall a, fst (m w) = Ret a -> Q a).
End Effects.

Definition anything {A} : A -> Prop := fun _ => True.

(** Every event passes the test [ok]. *)
Definition each (ok : event -> bool) (evs : list event) : Prop :=
  Forall (fun ev => ok ev = true) evs.

(** [m] returns the same result and shows the same events in every world,
    and leaves the session state alone. *)
Definition uniform {A} (m : M A) (r : outcome A) (evs : list event) : Prop :=
  forall w, m w = (r, World (session w) (shown w ++ evs)).

(** The summary section stands in the place of the trigger: no button, and
    the warning wherever its subheader is drawn. *)
Definition is_generate_button (ev : event) : bool :=
  match ev with
  | st_button label => String.eqb label "Generate AI Summary"
  | _ => false
  end.


Definition no_generation (ev : event) : bool :=
  negb (is_generate_content ev) && negb (is_generate_button ev).

Definition disabled (evs : list event) : Prop :=
  each no_generation evs /\
  (In summary_subheader evs -> In disabled_warning evs).

(** ** The events of each part of the script *)

Definition is_geocode_event (ev : event) : bool :=
  match ev with
  | requests_get (geocode_url _) _ => true
  | st_error _ => true
  | _ => false
  end.

Definition is_fetch_event (ev : event) : bool :=
  match ev with
  | requests_get (usgs_url _ _ _) _ => true
  | st_error _ => true
  | _ => false
  end.

Definition is_analysis_event (ev : event) : bool :=
  match ev with
  | requests_get _ _ | st_error _ | st_spinner _ | st_success _ => true
  | st_button label => String.eqb label "Analyze Site"
  | _ => false
  end.

Definition is_report_event (ev : event) : bool :=
  match ev with
  | st_subheader _ | st_write _ | st_dataframe _ | st_map _ _
  | st_download_button _ _ _ _ | st_info _ | st_warning _ => true
  | st_button label => String.eqb label "Generate AI Summary"
  | _ => false
  end.

Definition is_markdown (ev : event) : bool :=
  match ev with st_markdown _ => true | _ => false end.

Definition is_render_event (ev : event) : bool :=
  is_report_event ev || is_markdown ev.

(** What every run starts with, before the first button. *)
Definition heading (inp : interaction) : list event :=
  [st_set_page_config "Instant Site Analysis" "🗺️" "wide";
   st_title "🗺️ Instant Site Analysis Report";
   st_write "Enter a U.S. address to pull live data and generate an AI-powered summary. This demonstrates rapid prototyping with real-time data analysis.";
   st_text_input "Enter a U.S. Address:" (address_box inp)].

(** The narrative text is the same in both session states. *)
Definition same_summary (s s' : Session.t) : Prop :=
  Session.summary s' = Session.summary s.

(** [m] does not look at the session: see [uniform]. *)
Definition steady {A} (m : M A) : Prop := exists r evs, uniform m r evs.

(** The record the Fetcher makes of a feature with fields [x]. *)
Definition record_of (x : feature_fields) : Quake.t :=
  Quake.Build (f_place x) (f_mag x) (Timestamp (f_time_ms x * 1000000))
    (f_coord1 x) (f_coord0 x).

Definition model_name : string := "gemini-1.5-flash-latest".

(** What the generator returns for what the service does. *)
Definition text_of (answer : outcome string) : string :=
  match answer with
  | Ret text => text
  | Raise e => "An error occurred with the AI model: " ++ exn_str e
  end.

(** ** The state of the session and the outcomes of the handlers *)

(** The key is in [st.session_state]. *)
Definition has {A} (o : option A) : bool :=
  match o with Some _ => true | None => false end.

(** What the script relies on when it reads the session: with a report come
    the coordinates and the display name it was fetched for, and a narrative
    text comes with a report. *)
Definition consistent (s : Session.t) : bool :=
  implb (has (Session.df s))
        (has (Session.lat s) && has (Session.lon s)
         && has (Session.full_address s))
  && implb (has (Session.summary s)) (has (Session.df s)).

(** [float(data[key])] *)
Definition coordinate {RT : Runtime} (data : pyval) (key : string)
  : outcome float :=
  let? v := getitem data key in py_float v.

(** What is drawn for a report with events, and for one without. *)
Definition report_events (df : DataFrame) (lat lon : float) : list event :=
  match df with
  | [] =>
      [st_subheader "Seismic Activity Report";
       st_info "No recent seismic activity found in the vicinity.";
       st_map [(PFloat lat, PFloat lon)] 7]
  | _ =>
      [st_subheader "Seismic Activity Report";
       st_write ("Found **" ++ str_of_int (len df)
                 ++ "** recent seismic events within 100km.");
       st_dataframe df;
       st_map (map point_of df ++ [(PFloat lat, PFloat lon)]) 7;
       st_download_button "Download Report as CSV" df
         "seismic_report.csv" "text/csv"]
  end.

(** The events of the report itself, as opposed to the controls around it. *)
Definition is_drawing_event (ev : event) : bool :=
  match ev with
  | st_subheader _ | st_write _ | st_dataframe _ | st_map _ _
  | st_download_button _ _ _ _ | st_info _ => true
  | _ => false
  end.

(** What the handler of the Analyze Site button does to a world [w]: nothing
    but drawing its button when it was not pressed; otherwise it stops after
    the geocoding request with the session as it was, or it goes on to the
    catalogue and stores the four results, or the Fetcher raises and three
    of the four are stored. *)
Inductive analysis (inp : interaction) (w : world)
  : outcome unit * world -> Prop :=
| analysis_not_pressed :
    pressed inp <> Some AnalyzeSite ->
    analysis inp w
      (Ret tt, World (session w) (shown w ++ [st_button "Analyze Site"]))
| analysis_stopped r evs :
    pressed inp = Some AnalyzeSite ->
    filter is_request evs
    = [requests_get (geocode_url (address_box inp)) 10] ->
    analysis inp w
      (r, World (session w)
            (shown w ++ st_button "Analyze Site"
                        :: st_spinner "Analyzing..." :: evs))
| analysis_stored lat lon name df evs :
    pressed inp = Some AnalyzeSite ->
    filter is_request evs
    = [requests_get (geocode_url (address_box inp)) 10;
       requests_get (usgs_url lat lon 100) 10] ->
    analysis inp w
      (Ret tt,
       World (Session.Build (Some lat) (Some lon) (Some name) (Some df)
                (Session.summary (session w)))
         (shown w ++ st_button "Analyze Site"
                     :: st_spinner "Analyzing..." :: evs))
| analysis_interrupted lat lon name e evs :
    pressed inp = Some AnalyzeSite ->
    filter is_request evs
    = [requests_get (geocode_url (address_box inp)) 10;
       requests_get (usgs_url lat lon 100) 10] ->
    analysis inp w
      (Raise e,
       World (Session.Build (Some lat) (Some lon) (Some name)
                (Session.df (session w)) (Session.summary (session w)))
         (shown w ++ st_button "Analyze Site"
                     :: st_spinner "Analyzing..." :: evs)).

(** What the control of the narrative does to a world [w]: the warning
    without the credential; with it the button, and when the button was
    pressed the spinner and then either one call to the model, whose text
    (or whose error message) becomes the narrative of the session, or an
    exception raised before the model is called. *)
Inductive narration {RT : Runtime} (secrets : list (string * string))
    (env : services) (inp : interaction) (w : world)
  : outcome unit * world -> Prop :=
| narration_disabled :
    API_KEY_CONFIGURED secrets = false ->
    narration secrets env inp w
      (Ret tt, World (session w) (shown w ++ [disabled_warning]))
| narration_idle :
    API_KEY_CONFIGURED secrets = true ->
    pressed inp <> Some GenerateAISummary ->
    narration secrets env inp w
      (Ret tt, World (session w) (shown w ++ [st_button "Generate AI Summary"]))
| narration_stored name df prompt :
    API_KEY_CONFIGURED secrets = true ->
    pressed inp = Some GenerateAISummary ->
    Session.full_address (session w) = Some name ->
    Session.df (session w) = Some df ->
    shown (snd (generate_ai_summary secrets env name df (World (session w) [])))
    = [generate_content model_name prompt] ->
    narration secrets env inp w
      (Ret tt,
       World (Session.set_summary (text_of (generate_text env model_name prompt))
                (session w))
         (shown w ++ [st_button "Generate AI Summary";
                      st_spinner "AI is thinking...";
                      generate_content model_name prompt]))
| narration_unreadable e :
    API_KEY_CONFIGURED secrets = true ->
    pressed inp = Some GenerateAISummary ->
    Session.full_address (session w) = None \/ Session.df (session w) = None ->
    narration secrets env inp w
      (Raise e,
       World (session w)
         (shown w ++ [st_button "Generate AI Summary";
                      st_spinner "AI is thinking..."]))
| narration_raised name df e :
    API_KEY_CONFIGURED secrets = true ->
    pressed inp = Some GenerateAISummary ->
    Session.full_address (session w) = Some name ->
    Session.df (session w) = Some df ->
    generate_ai_summary secrets env name df (World (session w) [])
    = (Raise e, World (session w) []) ->
    narration secrets env inp w
      (Raise e,
       World (session w)
         (shown w ++ [st_button "Generate AI Summary";
                      st_spinner "AI is thinking..."])).

(* ===================================================================== *)
(** * Scenarios *)
(* ===================================================================== *)

Definition ok_response (body : pyval) : response :=
  Response 200 "OK" "" (Ret body).

(** An entry of the geocoder's answer: coordinates come as strings. *)
Definition place_entry (lat lon : string) (display_name : string) : pyval :=
  PDict [("place_id", PInt 1); ("lat", PStr lat); ("lon", PStr lon);
         ("display_name", PStr display_name)].

Definition mountain_view : pyval :=
  place_entry "37.4220656" "-122.0840897"
    "Google Building 41, 1600, Amphitheatre Parkway, Mountain View, California, 94043, United States".

(** A feature of the catalogue's answer. *)
Definition feature (place : string) (mag : pyval) (time_ms : Z)
    (lon lat depth : float) : pyval :=
  PDict [("type", PStr "Feature");
         ("properties", PDict [("mag", mag); ("place", PStr place);
                               ("time", PInt time_ms)]);
         ("geometry", PDict [("type", PStr "Point");
                             ("coordinates",
                              PList [PFloat lon; PFloat lat; PFloat depth])])].

(** 2.5, 1.75, -121.5, 37.25 and 8.0 *)
Definition f2_5 : float := S754_finite false 5 (-1).
Definition f1_75 : float := S754_finite false 7 (-2).
Definition fm121_5 : float := S754_finite true 243 (-1).
Definition f37_25 : float := S754_finite false 149 (-2).
Definition f8 : float := S754_finite false 1 3.

Definition two_quakes : pyval :=
  PDict [("type", PStr "FeatureCollection");
         ("features",
          PList [feature "5 km NE of San Jose, CA" (PFloat f1_75)
                   1700000000000 fm121_5 f37_25 f8;
                 feature "3 km W of Cupertino, CA" (PFloat f2_5)
                   1699990000000 fm121_5 f37_25 f8])].

(** The report made of [two_quakes]. *)
Definition two_records : DataFrame :=
  [Quake.Build (PStr "5 km NE of San Jose, CA") (PFloat f1_75)
     (Timestamp 1700000000000000000) (PFloat f37_25) (PFloat fm121_5);
   Quake.Build (PStr "3 km W of Cupertino, CA") (PFloat f2_5)
     (Timestamp 1699990000000000000) (PFloat f37_25) (PFloat fm121_5)].

(** Both endpoints answer; the generative service answers too. *)
Definition calm_services : services :=
  Services
    (fun u => match u with
              | geocode_url _ => Ret (ok_response (PList [mountain_view]))
              | usgs_url _ _ _ => Ret (ok_response two_quakes)
              end)
    (fun _ _ => Ret "A short summary.").

(** The geocoder cannot be reached. *)
Definition unreachable_geocoder : services :=
  Services
    (fun u => match u with
              | geocode_url _ =>
                  Raise (Exn ConnectionError "Max retries exceeded with url: /search")
              | usgs_url _ _ _ => Ret (ok_response two_quakes)
              end)
    (fun _ _ => Ret "A short summary.").

(** The geocoder finds nothing. *)
Definition no_match_geocoder : services :=
  Services
    (fun u => match u with
              | geocode_url _ => Ret (ok_response (PList []))
              | usgs_url _ _ _ => Ret (ok_response two_quakes)
              end)
    (fun _ _ => Ret "A short summary.").

(** The geocoder answers with a status outside 2xx that [raise_for_status]
    lets through. *)
Definition multiple_choices_geocoder : services :=
  Services
    (fun u => match u with
              | geocode_url _ =>
                  Ret (Response 300 "Multiple Choices" ""
                         (Ret (PList [mountain_view])))
              | usgs_url _ _ _ => Ret (ok_response two_quakes)
              end)
    (fun _ _ => Ret "A short summary.").

(** The address is on the prime meridian. *)
Definition meridian_geocoder : services :=
  Services
    (fun u => match u with
              | geocode_url _ =>
                  Ret (ok_response
                         (PList [place_entry "51.4779" "0.0"
                                   "Prime Meridian, Greenwich, London, United Kingdom"]))
              | usgs_url _ _ _ => Ret (ok_response two_quakes)
              end)
    (fun _ _ => Ret "A short summary.").



(** The generative service refuses the request. *)
Definition failing_model : services :=
  Services
    (http_get calm_services)
    (fun _ _ => Raise (Exn (OtherException "ResourceExhausted")
                         "429 Quota exceeded")).

(** A press on a button, the address box holding its initial text. *)
Definition press (b : button) : interaction :=
  Interaction "1600 Amphitheatre Parkway, Mountain View, CA" (Some b).

Definition some_keys : list (string * string) := [("GOOGLE_API_KEY", "k")].

(** ** Malformed answers and sessions with a report *)

(** The session after the address of [calm_services] was analysed. *)
Definition analysed_session : Session.t :=
  Session.Build (Some f37_25) (Some fm121_5) (Some (PStr "Mountain View"))
    (Some two_records) None.


(** The geocoder's first match lacks its latitude. *)
Definition incomplete_geocoder : services :=
  Services
    (fun u => match u with
              | geocode_url _ =>
                  Ret (ok_response
                         (PList [PDict [("lon", PStr "-122.0840897");
                                        ("display_name", PStr "Mountain View")]]))
              | usgs_url _ _ _ => Ret (ok_response two_quakes)
              end)
    (fun _ _ => Ret "A short summary.").

(** The body of an answer is not JSON. *)
Definition undecodable : response :=
  Response 200 "OK" ""
    (Raise (Exn JSONDecodeError "Expecting value: line 1 column 1 (char 0)")).

Definition undecodable_services : services :=
  Services (fun _ => Ret undecodable) (fun _ _ => Ret "A short summary.").

(** A feature without its geometry. *)
Definition shapeless_feature : pyval :=
  PDict [("type", PStr "Feature");
         ("properties", PDict [("mag", PFloat f2_5);
                               ("place", PStr "3 km W of Cupertino, CA");
                               ("time", PInt 1699990000000)])].

(** The catalogue's second feature has no geometry. *)
Definition shapeless_collection : pyval :=
  PDict [("type", PStr "FeatureCollection");
         ("features",
          PList [feature "5 km NE of San Jose, CA" (PFloat f1_75)
                   1700000000000 fm121_5 f37_25 f8;
                 shapeless_feature])].

Definition shapeless_catalogue : services :=
  Services
    (fun u => match u with
              | geocode_url _ => Ret (ok_response (PList [mountain_view]))
              | usgs_url _ _ _ => Ret (ok_response shapeless_collection)
              end)
    (fun _ _ => Ret "A short summary.").

(** The catalogue answers with an object that has no features. *)
Definition featureless_catalogue : services :=
  Services
    (fun u => match u with
              | geocode_url _ => Ret (ok_response (PList [mountain_view]))
              | usgs_url _ _ _ =>
                  Ret (ok_response (PDict [("error", PStr "bad request")]))
              end)
    (fun _ _ => Ret "A short summary.").

(** The geocoder's match has no display name. *)
Definition nameless_geocoder : services :=
  Services
    (fun u => match u with
              | geocode_url _ =>
                  Ret (ok_response
                         (PList [PDict [("lat", PStr "37.25");
                                        ("lon", PStr "-121.5")]]))
              | usgs_url _ _ _ => Ret (ok_response two_quakes)
              end)
    (fun _ _ => Ret "A short summary.").



(* ===================================================================== *)
(** * Basic facts *)
(* ===================================================================== *)




(** ** The rules of [within] *)

Section EffectRules.
Variable T : list event -> Prop.
Variable R : Session.t -> Session.t -> Prop.
Hypothesis T_nil : T [].
Hypothesis T_app : forall a b, T a -> T b -> T (a ++ b)%list.
Hypothesis R_refl : forall s, R s s.
Hypothesis R_trans : forall a b c, R a b -> R b c -> R a c.

Lemma within_ret A (Q : A -> Prop) (a : A) : Q a -> within T R Q (ret a).
Proof.
  intros H w. exists []. simpl. rewrite app_nil_r.
  split; [reflexivity | split; [exact T_nil | split; [apply R_refl |]]].
  intros a' E. injection E as <-. exact H.
Qed.

Lemma within_lift A (o : outcome A) : within T R anything (lift o).
Proof.
  intros w. exists []. simpl. rewrite app_nil_r. repeat split; auto.
Qed.

Lemma within_get_session : within T R anything get_session.
Proof.
  intros w. exists []. simpl. rewrite app_nil_r. repeat split; auto.
Qed.

Lemma within_read_attr A name (field : Session.t -> option A) :
  within T R anything (read_attr name field).
Proof.
  intros w. exists []. unfold read_attr.
  destruct (field (session w)); simpl; rewrite app_nil_r; repeat split; auto.
Qed.

Lemma within_emit ev : T [ev] -> within T R anything (emit ev).
Proof.
  intros H w. exists [ev]. simpl. repeat split; auto.
Qed.

Lemma within_update_session f :
  (forall s, R s (f s)) -> within T R anything (update_session f).
Proof.
  intros H w. exists []. simpl. rewrite app_nil_r. repeat split; auto.
Qed.

Lemma within_bind A B (Q : A -> Prop) (Q' : B -> Prop) (m : M A) (k : A -> M B) :
  within T R Q m -> (forall a, Q a -> within T R Q' (k a)) ->
  within T R Q' (bind m k).
Proof.
  intros Hm Hk w. unfold bind.
  destruct (Hm w) as (evs & Hs & Hp & Hr & Hq).
  destruct (m w) as [[a | e] w']; simpl in *.
  - destruct (Hk a (Hq a eq_refl) w') as (evs' & Hs' & Hp' & Hr' & Hq').
    exists (evs ++ evs')%list. rewrite Hs', Hs, app_assoc.
    repeat split; eauto.
  - exists evs. repeat split; auto. discriminate.
Qed.

Lemma within_try_except A (Q : A -> Prop) (body : M A) catches handler :
  within T R Q body -> (forall e, within T R Q (handler e)) ->
  within T R Q (try_except body catches handler).
Proof.
  intros Hm Hk w. unfold try_except.
  destruct (Hm w) as (evs & Hs & Hp & Hr & Hq).
  destruct (body w) as [[a | e] w']; simpl in *.
  - exists evs. auto.
  - destruct (catches e); simpl.
    + destruct (Hk e w') as (evs' & Hs' & Hp' & Hr' & Hq').
      exists (evs ++ evs')%list. rewrite Hs', Hs, app_assoc.
      repeat split; eauto.
    + exists evs. repeat split; auto.
Qed.

End EffectRules.

Lemma within_mono (T T' : list event -> Prop) (R R' : Session.t -> Session.t -> Prop)
    A (Q Q' : A -> Prop) (m : M A) :
  (forall evs, T evs -> T' evs) ->
  (forall s s', R s s' -> R' s s') ->
  (forall a, Q a -> Q' a) ->
  within T R Q m -> within T' R' Q' m.
Proof.
  intros HT HR HQ Hm w. destruct (Hm w) as (evs & Hs & Hp & Hr & Hq).
  exists evs. repeat split; auto.
Qed.

Lemma each_nil ok : each ok [].
Proof. constructor. Qed.

Lemma each_app ok a b : each ok a -> each ok b -> each ok (a ++ b)%list.
Proof. intros Ha Hb. apply Forall_app. split; assumption. Qed.

Lemma each_one ok ev : ok ev = true -> each ok [ev].
Proof. intros H. constructor; [exact H | constructor]. Qed.

Lemma each_weaken (ok ok' : event -> bool) evs :
  (forall ev, ok ev = true -> ok' ev = true) -> each ok evs -> each ok' evs.
Proof. intros H. apply Forall_impl. exact H. Qed.

Lemma disabled_nil : disabled [].
Proof. split; [apply each_nil | intros []]. Qed.

Lemma disabled_app a b : disabled a -> disabled b -> disabled (a ++ b)%list.
Proof.
  intros [Ha Ha'] [Hb Hb']. split; [now apply each_app |].
  intros H. apply in_app_iff. apply in_app_iff in H. tauto.
Qed.

(** Side conditions of the rules, for the sets of events and the relations
    on session states used below. *)
Ltac side :=
  solve [ apply each_nil | apply each_app | apply disabled_nil
        | apply disabled_app | intros; exact I | intros; congruence
        | intros; reflexivity ].

(** One step through a piece of script, by the rule of its head. *)
Ltac step :=
  lazymatch goal with
  | |- within _ _ _ (bind _ _) =>
      eapply within_bind; [side .. | | intros ? ?]
  | |- within _ _ _ (try_except _ _ _) =>
      eapply within_try_except; [side .. | | intros ?]
  | |- within _ _ _ (ret _) =>
      first [ apply within_ret with (Q := anything); [side .. | exact I]
            | apply within_ret; [side .. | ] ]
  | |- within _ _ _ (lift _) => apply within_lift; side
  | |- within _ _ _ get_session => apply within_get_session; side
  | |- within _ _ _ (read_attr _ _) => apply within_read_attr; side
  | |- within _ _ _ (emit _) =>
      apply within_emit;
      [side .. | first [ apply each_one; reflexivity
                       | split; [apply each_one; reflexivity
                                | let E := fresh in
                                  intros [E | []];
                                  unfold summary_subheader in E;
                                  discriminate E]
                       | exact I
                       | idtac ] ]
  | |- within _ _ _ (update_session _) =>
      apply within_update_session; [side .. | try (intros []; reflexivity)]
  | |- within _ _ _ (if ?b then _ else _) => destruct b
  | |- within _ _ _ (match ?x with _ => _ end) => destruct x
  | |- within _ _ _ (let '(_, _) := ?x in _) => destruct x
  end.

(** A call of a function whose effects are known by [lemma], in a context
    that allows more: [weaken] takes the events of the one to the other. *)
Ltac call lemma weaken :=
  eapply within_mono; [ | | | eapply lemma ];
  [ intros ?; apply each_weaken, weaken
  | intros ? ? ->; reflexivity
  | intros; exact I ].

(** ** What each function shows and touches *)

Section FunctionEffects.
Context {RT : Runtime}.
Variable secrets : list (string * string).
Variable env : services.

Lemma get_within ok u :
  ok (requests_get u 10) = true -> within (each ok) eq anything (get env u).
Proof.
  intros H. unfold get. step; [step; now apply each_one | step].
Qed.

Lemma geocode_address_within address :
  within (each is_geocode_event) eq anything (geocode_address env address).
Proof.
  unfold geocode_address.
  step; [ step | step; step ].
  - repeat (step; try (apply get_within; reflexivity)).
  - repeat step.
Qed.

Lemma get_nearby_earthquakes_within lat lon radius_km :
  within (each is_fetch_event) eq anything
    (get_nearby_earthquakes env lat lon radius_km).
Proof.
  unfold get_nearby_earthquakes.
  step; [ step | step; step ].
  - repeat (step; try (apply get_within; reflexivity)).
  - repeat step.
Qed.

Lemma button_pressed_within ok inp label b :
  ok (st_button label) = true ->
  within (each ok) eq
    (fun r => r = match pressed inp with
                  | Some b' => button_eqb b b'
                  | None => false
                  end)
    (button_pressed inp label b).
Proof.
  intros H. unfold button_pressed. step; [step; now apply each_one |].
  apply within_ret; [side .. | reflexivity].
Qed.

Lemma generate_ai_summary_within address_name df :
  within (each is_generate_content) eq anything
    (generate_ai_summary secrets env address_name df).
Proof.
  unfold generate_ai_summary. repeat step.
Qed.

Lemma generate_ai_summary_not_configured address_name df w :
  API_KEY_CONFIGURED secrets = false ->
  generate_ai_summary secrets env address_name df w
  = (Ret not_configured_message, w).
Proof.
  intros H. unfold generate_ai_summary. rewrite H. reflexivity.
Qed.

Lemma geocode_is_analysis ev :
  is_geocode_event ev = true -> is_analysis_event ev = true.
Proof. destruct ev as [[] | | | | | | | | | | | | | | | |]; simpl; congruence. Qed.

Lemma fetch_is_analysis ev :
  is_fetch_event ev = true -> is_analysis_event ev = true.
Proof. destruct ev as [[] | | | | | | | | | | | | | | | |]; simpl; congruence. Qed.

Lemma analyze_site_within inp :
  within (each is_analysis_event) same_summary anything (analyze_site env inp).
Proof.
  unfold analyze_site.
  repeat first
    [ step
    | call (button_pressed_within is_analysis_event inp "Analyze Site"
              AnalyzeSite eq_refl)
           (fun ev (H : is_analysis_event ev = true) => H)
    | call geocode_address_within geocode_is_analysis
    | call get_nearby_earthquakes_within fetch_is_analysis ].
Qed.

Lemma summary_section_within :
  within (each is_markdown) eq anything summary_section.
Proof.
  unfold summary_section. repeat step.
Qed.

(** The report section when the summary button was not the one pressed. *)
Lemma report_section_within inp :
  pressed inp <> Some GenerateAISummary ->
  within (each is_report_event) eq anything (report_section secrets env inp).
Proof.
  intros Hp. unfold report_section.
  repeat first
    [ match goal with
      | H : true = match pressed inp with _ => _ end |- _ =>
          exfalso; destruct (pressed inp) as [[] |]; simpl in H; congruence
      end
    | step
    | apply button_pressed_within; reflexivity ].
Qed.


End FunctionEffects.

(** ** Functions that do not look at the session *)

Lemma steady_ret A (a : A) : steady (ret a).
Proof. exists (Ret a), []. intros w. unfold ret. now rewrite app_nil_r; destruct w. Qed.

Lemma steady_lift A (o : outcome A) : steady (lift o).
Proof. exists o, []. intros w. unfold lift. now rewrite app_nil_r; destruct w. Qed.

Lemma steady_emit ev : steady (emit ev).
Proof. exists (Ret tt), [ev]. intros w. reflexivity. Qed.

Lemma steady_bind A B (m : M A) (k : A -> M B) :
  steady m -> (forall a, steady (k a)) -> steady (bind m k).
Proof.
  intros (r & evs & Hm) Hk. destruct r as [a | e].
  - destruct (Hk a) as (r' & evs' & Hk'). exists r', (evs ++ evs')%list.
    intros w. unfold bind. rewrite Hm, Hk'. simpl. now rewrite app_assoc.
  - exists (Raise e), evs. intros w. unfold bind. now rewrite Hm.
Qed.

Lemma steady_try_except A (body : M A) catches handler :
  steady body -> (forall e, steady (handler e)) ->
  steady (try_except body catches handler).
Proof.
  intros (r & evs & Hm) Hk. destruct r as [a | e].
  - exists (Ret a), evs. intros w. unfold try_except. now rewrite Hm.
  - destruct (catches e) eqn:Hc.
    + destruct (Hk e) as (r' & evs' & Hk'). exists r', (evs ++ evs')%list.
      intros w. unfold try_except. rewrite Hm, Hc, Hk'. simpl.
      now rewrite app_assoc.
    + exists (Raise e), evs. intros w. unfold try_except. now rewrite Hm, Hc.
Qed.

Ltac steadily :=
  repeat lazymatch goal with
  | |- steady (bind _ _) => apply steady_bind; [ | intros ? ]
  | |- steady (try_except _ _ _) => apply steady_try_except; [ | intros ? ]
  | |- steady (ret _) => apply steady_ret
  | |- steady (lift _) => apply steady_lift
  | |- steady (emit _) => apply steady_emit
  | |- steady (if ?b then _ else _) => destruct b
  | |- steady (match ?x with _ => _ end) => destruct x
  end.

Lemma geocode_address_steady {RT : Runtime} env address :
  steady (geocode_address env address).
Proof. unfold geocode_address, get. steadily. Qed.

Lemma get_nearby_earthquakes_steady {RT : Runtime} env lat lon radius_km :
  steady (get_nearby_earthquakes env lat lon radius_km).
Proof. unfold get_nearby_earthquakes, get. steadily. Qed.

(** ** The whole script *)




Section ScriptEffects.
Context {RT : Runtime}.
Variable secrets : list (string * string).
Variable env : services.

Lemma script_same_summary inp :
  pressed inp <> Some GenerateAISummary ->
  within (fun _ => True) same_summary anything (script secrets env inp).
Proof.
  intros Hp. unfold script.
  do 4 (step; [ step | ]).
  step.
  { eapply within_mono with (Q' := anything); [ | | | apply analyze_site_within ]; auto. }
  step.
  { eapply within_mono with (Q' := anything); [ | | | apply report_section_within, Hp ];
      [ auto | intros ? ? ->; reflexivity | auto ]. }
  eapply within_mono with (Q' := anything); [ | | | apply summary_section_within ];
    [ auto | intros ? ? ->; reflexivity | auto ].
Qed.


Lemma bind_returns A B (m : M A) (k : A -> M B) w b w'' :
  bind m k w = (Ret b, w'') ->
  exists a w', m w = (Ret a, w') /\ k a w' = (Ret b, w'').
Proof.
  unfold bind. destruct (m w) as [[a | e] w'].
  - intros H. exists a, w'. auto.
  - discriminate.
Qed.

Lemma summary_section_shows w text :
  Session.summary (session w) = Some text ->
  session (snd (summary_section w)) = session w /\
  In (st_markdown text) (shown (snd (summary_section w))).
Proof.
  intros H. unfold summary_section, bind, get_session. rewrite H. simpl.
  split; [reflexivity | apply in_app_iff; right; left; reflexivity].
Qed.

Lemma summary_section_session w :
  session (snd (summary_section w)) = session w.
Proof.
  unfold summary_section, bind, get_session. simpl.
  destruct (Session.summary (session w)); reflexivity.
Qed.

Lemma script_renders_summary inp s w text :
  script secrets env inp (World s []) = (Ret tt, w) ->
  Session.summary (session w) = Some text ->
  In (st_markdown text) (shown w).
Proof.
  unfold script. intros H Hs.
  do 6 (apply bind_returns in H; destruct H as (? & ? & _ & H)).
  match type of H with
  | summary_section ?w0 = _ =>
      assert (E : w = snd (summary_section w0)) by now rewrite H
  end.
  subst w. rewrite summary_section_session in Hs.
  now apply summary_section_shows.
Qed.

End ScriptEffects.

(* ===================================================================== *)
(** * The Resolver *)
(* ===================================================================== *)

Lemma getitem_dict_get v k x : getitem v k = Ret x -> dict_get v k = Ret x.
Proof.
  destruct v; simpl; try discriminate.
  destruct (lookup k d); [ auto | discriminate ].
Qed.

Lemma raise_for_status_request_exception r e :
  raise_for_status r = Raise e -> is_RequestException e = true.
Proof.
  unfold raise_for_status.
  destruct ((400 <=? status_code r) && (status_code r <? 500));
    [ intros [= <-]; reflexivity | ].
  destruct ((500 <=? status_code r) && (status_code r <? 600));
    [ intros [= <-]; reflexivity | discriminate ].
Qed.

(** C3.  When the geocoding endpoint answers with an array whose first entry
    carries ['lat'] and ['lon'] that [float] accepts and a ['display_name']
    that is a string, [geocode_address] returns these two floats and that
    string, none of them [None], whatever the other entries of the array
    are, and shows no error. *)
Theorem geocode_returns_first_entry {RT : Runtime} (env : services)
    (address : string) (r : response) (entry : pyval) (others : list pyval)
    (lat_field lon_field : pyval) (lat lon : float) (display_name : string)
    (w : world) :
  http_get env (geocode_url address) = Ret r ->
  raise_for_status r = Ret tt ->
  json r = Ret (PList (entry :: others)) ->
  getitem entry "lat" = Ret lat_field -> py_float lat_field = Ret lat ->
  getitem entry "lon" = Ret lon_field -> py_float lon_field = Ret lon ->
  getitem entry "display_name" = Ret (PStr display_name) ->
  geocode_address env address w
  = (Ret (Some lat, Some lon, PStr display_name),
     World (session w) (shown w ++ [requests_get (geocode_url address) 10])).
Proof.
  intros Hget Hstatus Hjson Hlat Hlatf Hlon Hlonf Hname.
  unfold geocode_address, try_except, bind, get, emit, lift; simpl.
  rewrite Hget, Hstatus, Hjson; simpl.
  rewrite Hlat; simpl. rewrite Hlatf.
  rewrite Hlon; simpl. rewrite Hlonf.
  rewrite (getitem_dict_get _ _ Hname). reflexivity.
Qed.

Lemma geocode_returns_first_entry_witness :
  geocode_address (RT := reference_runtime) calm_services "1600 Amphitheatre Parkway"
    (World Session.initial [])
  = (Ret (Some (S754_finite false 5266687521612321 (-47)),
          Some (S754_finite true 8590904076262285 (-46)),
          PStr "Google Building 41, 1600, Amphitheatre Parkway, Mountain View, California, 94043, United States"),
     World Session.initial
       [requests_get (geocode_url "1600 Amphitheatre Parkway") 10]).
Proof.
  apply (geocode_returns_first_entry (RT := reference_runtime) calm_services
           "1600 Amphitheatre Parkway" (r := ok_response (PList [mountain_view]))
           (entry := mountain_view) (others := [])
           (lat_field := PStr "37.4220656") (lon_field := PStr "-122.0840897")
           (World Session.initial []));
    reflexivity.
Defined.

(** Only the first entry is looked at, and an entry may lack its name. *)
Example geocode_first_of_two :
  fst (geocode_address (RT := reference_runtime)
         (Services
            (fun _ => Ret (ok_response
                             (PList [PDict [("lat", PStr "1.5"); ("lon", PStr "-2.25")];
                                     mountain_view])))
            (fun _ _ => Ret ""))
         "anywhere" (World Session.initial []))
  = Ret (Some (S754_finite false 6755399441055744 (-52)),
         Some (S754_finite true 5066549580791808 (-51)),
         PNone).
Proof. reflexivity. Qed.

(* ===================================================================== *)
(** * The Fetcher *)
(* ===================================================================== *)

Section Fetcher.
Context {RT : Runtime}.

Lemma to_datetime_ms_int ms :
  - 2 ^ 63 < ms * 1000000 < 2 ^ 63 ->
  to_datetime_ms (PInt ms) = Ret (Timestamp (ms * 1000000)).
Proof.
  intros H. unfold to_datetime_ms.
  replace ((- 2 ^ 63 <? ms * 1000000) && (ms * 1000000 <? 2 ^ 63)) with true
    by (symmetry; apply andb_true_iff; split; apply Z.ltb_lt; lia).
  reflexivity.
Qed.

Lemma earthquake_of_feature feature x :
  feature_has feature x -> earthquake_of feature = Ret (record_of x).
Proof.
  intros (properties & geometry & coordinates & Hp & Hplace & Hmag & Htime
          & Hrange & Hg & Hc & H0 & H1).
  unfold earthquake_of.
  rewrite Hp; cbn [obind]. rewrite Hg; cbn [obind]. rewrite Hc; cbn [obind].
  rewrite Hplace; cbn [obind]. rewrite Hmag; cbn [obind].
  rewrite Htime; cbn [obind]. rewrite (to_datetime_ms_int _ Hrange); cbn [obind].
  rewrite H1; cbn [obind]. rewrite H0; cbn [obind]. reflexivity.
Qed.

Lemma append_earthquakes_features features fields earthquakes :
  Forall2 feature_has features fields ->
  append_earthquakes features earthquakes
  = Ret (earthquakes ++ map record_of fields)%list.
Proof.
  intros H. revert earthquakes.
  induction H as [| feature x features fields Hx _ IH]; intros earthquakes; simpl.
  - now rewrite app_nil_r.
  - rewrite (earthquake_of_feature Hx); simpl.
    rewrite IH, <- app_assoc. reflexivity.
Qed.

End Fetcher.

(** C4.  When the catalogue answers with a collection of N features, each
    carrying [properties.place], [properties.mag], [properties.time] (an
    integer count of milliseconds that pandas can hold) and at least two
    [geometry.coordinates], [get_nearby_earthquakes] returns a report of N
    records, the i-th record made from the i-th feature: same place and
    magnitude, the time converted to the timestamp of that instant, [lat]
    the second coordinate and [lon] the first. *)
Theorem report_has_one_record_per_feature {RT : Runtime} (env : services)
    (lat lon : float) (radius_km : Z) (r : response) (body : pyval)
    (features : list pyval) (fields : list feature_fields) (w : world) :
  http_get env (usgs_url lat lon radius_km) = Ret r ->
  raise_for_status r = Ret tt ->
  json r = Ret body ->
  getitem body "features" = Ret (PList features) ->
  Forall2 feature_has features fields ->
  exists report,
    get_nearby_earthquakes env lat lon radius_km w
    = (Ret report,
       World (session w)
         (shown w ++ [requests_get (usgs_url lat lon radius_km) 10])) /\
    List.length report = List.length features /\
    Forall2 (fun x q =>
               Quake.place q = f_place x /\
               Quake.magnitude q = f_mag x /\
               Quake.time q = Timestamp (f_time_ms x * 1000000) /\
               Quake.lat q = f_coord1 x /\
               Quake.lon q = f_coord0 x)
            fields report.
Proof.
  intros Hget Hstatus Hjson Hfeatures Hall.
  exists (map record_of fields). split; [ | split ].
  - unfold get_nearby_earthquakes, try_except, bind, get, emit, lift; simpl.
    rewrite Hget, Hstatus, Hjson; simpl. rewrite Hfeatures; simpl.
    rewrite (append_earthquakes_features [] Hall). reflexivity.
  - rewrite length_map. symmetry. eapply Forall2_length, Hall.
  - clear. induction fields as [| x fields IH]; simpl; constructor; auto.
Qed.

Lemma report_has_one_record_per_feature_witness :
  exists report,
    get_nearby_earthquakes (RT := reference_runtime) calm_services
      f37_25 fm121_5 100 (World Session.initial [])
    = (Ret report,
       World Session.initial [requests_get (usgs_url f37_25 fm121_5 100) 10]) /\
    List.length report = 2%nat /\
    Forall2 (fun x q =>
               Quake.place q = f_place x /\
               Quake.magnitude q = f_mag x /\
               Quake.time q = Timestamp (f_time_ms x * 1000000) /\
               Quake.lat q = f_coord1 x /\
               Quake.lon q = f_coord0 x)
            [Fields (PStr "5 km NE of San Jose, CA") (PFloat f1_75)
               1700000000000 (PFloat fm121_5) (PFloat f37_25);
             Fields (PStr "3 km W of Cupertino, CA") (PFloat f2_5)
               1699990000000 (PFloat fm121_5) (PFloat f37_25)]
            report.
Proof.
  apply (report_has_one_record_per_feature (RT := reference_runtime)
           calm_services f37_25 fm121_5 100
           (r := ok_response two_quakes) (body := two_quakes)
           (features :=
              [feature "5 km NE of San Jose, CA" (PFloat f1_75)
                 1700000000000 fm121_5 f37_25 f8;
               feature "3 km W of Cupertino, CA" (PFloat f2_5)
                 1699990000000 fm121_5 f37_25 f8])
           (World Session.initial []));
    try reflexivity.
  repeat constructor; unfold feature_has; simpl;
    do 3 eexists; repeat split; try reflexivity; lia.
Defined.

(* ===================================================================== *)
(** * When the Resolver fails *)
(* ===================================================================== *)

Section Failures.
Context {RT : Runtime}.
Variable secrets : list (string * string).
Variable env : services.

Lemma geocode_address_failure address e w :
  request_failure (http_get env (geocode_url address)) = Some e ->
  geocode_address env address w
  = (Ret (None, None, PNone),
     World (session w)
       (shown w ++ [requests_get (geocode_url address) 10;
                    st_error ("Geocoding API failed: " ++ exn_str e)])).
Proof.
  unfold request_failure, geocode_address, try_except, bind, get, emit, lift.
  simpl. destruct (http_get env (geocode_url address)) as [r | e'].
  - destruct (raise_for_status r) as [[] | e'] eqn:Hs; [ discriminate | ].
    intros [= ->]. rewrite (raise_for_status_request_exception _ Hs).
    simpl. now rewrite <- app_assoc.
  - destruct (is_RequestException e') eqn:He; [ | discriminate ].
    intros [= ->]. simpl. now rewrite <- app_assoc.
Qed.

Lemma geocode_address_zero_matches address w :
  zero_matches (http_get env (geocode_url address)) ->
  geocode_address env address w
  = (Ret (None, None, PNone),
     World (session w) (shown w ++ [requests_get (geocode_url address) 10])).
Proof.
  intros (r & Hget & Hs & Hj).
  unfold geocode_address, try_except, bind, get, emit, lift. simpl.
  rewrite Hget, Hs, Hj. reflexivity.
Qed.


Lemma script_after_heading inp w :
  script secrets env inp w
  = bind (analyze_site env inp)
      (fun _ => bind (report_section secrets env inp)
                  (fun _ => summary_section))
      (World (session w) (shown w ++ heading inp)).
Proof.
  unfold script, heading. unfold bind at 1 2 3 4. unfold emit. simpl.
  repeat rewrite <- app_assoc. reflexivity.
Qed.

Lemma run_after_analysis inp s w :
  analyze_site env inp (World s (heading inp)) = (Ret tt, w) ->
  run secrets env inp s
  = bind (report_section secrets env inp) (fun _ => summary_section) w.
Proof.
  intros H. unfold run. rewrite script_after_heading. unfold bind at 1.
  cbn [session shown app]. rewrite H. reflexivity.
Qed.

Lemma analyze_site_unresolved inp evs w :
  pressed inp = Some AnalyzeSite ->
  (forall w', geocode_address env (address_box inp) w'
              = (Ret (None, None, PNone),
                 World (session w') (shown w' ++ evs))) ->
  analyze_site env inp w
  = (Ret tt,
     World (session w)
       (shown w ++ st_button "Analyze Site" :: st_spinner "Analyzing..." :: evs)).
Proof.
  intros Hp Hg. unfold analyze_site, button_pressed.
  unfold bind at 1 2 3 4. unfold emit. simpl. rewrite Hp. simpl.
  unfold bind. rewrite Hg. simpl. repeat rewrite <- app_assoc. reflexivity.
Qed.

Lemma render_within inp :
  pressed inp <> Some GenerateAISummary ->
  within (each is_render_event) eq anything
    (bind (report_section secrets env inp) (fun _ => summary_section)).
Proof.
  intros Hp. step.
  - eapply within_mono with (Q' := anything);
      [ | | | apply report_section_within, Hp ]; auto.
    intros evs. apply each_weaken. intros ev Hev. unfold is_render_event.
    now rewrite Hev.
  - eapply within_mono with (Q' := anything);
      [ | | | apply summary_section_within ]; auto.
    intros evs. apply each_weaken. intros ev Hev. unfold is_render_event.
    rewrite Hev. apply orb_true_r.
Qed.

Lemma render_events_no_request evs :
  each is_render_event evs -> filter is_request evs = [].
Proof.
  induction 1 as [| ev evs Hev _ IH]; simpl; [ reflexivity | ].
  rewrite IH. destruct ev; try reflexivity; discriminate Hev.
Qed.

End Failures.

(** C1 (amended).  In a run caused by the Analyze Site button, when the
    geocoding endpoint answers with an empty array, or the request fails
    ([requests.get] raises a [RequestException], such as a network error or
    a timeout, or the status is a 4xx or a 5xx): [geocode_address] returns
    [None] three times; the geocoding request is the only request of the
    run, so nothing is retried and the earthquake catalogue is not asked;
    the session state is left as it was; and when the request failed its
    error is shown. *)
Theorem failed_geocoding_stops_the_analysis {RT : Runtime}
    (secrets : list (string * string)) (env : services)
    (inp : interaction) (s : Session.t) :
  pressed inp = Some AnalyzeSite ->
  zero_matches (http_get env (geocode_url (address_box inp))) \/
  (exists e, request_failure (http_get env (geocode_url (address_box inp)))
             = Some e) ->
  (forall w, fst (geocode_address env (address_box inp) w)
             = Ret (None, None, PNone)) /\
  filter is_request (shown (snd (run secrets env inp s)))
  = [requests_get (geocode_url (address_box inp)) 10] /\
  session (snd (run secrets env inp s)) = s /\
  (forall e,
     request_failure (http_get env (geocode_url (address_box inp))) = Some e ->
     In (st_error ("Geocoding API failed: " ++ exn_str e))
        (shown (snd (run secrets env inp s)))).
Proof.
  intros Hp Hfail.
  assert (Hgeo : exists evs,
    (forall w', geocode_address env (address_box inp) w'
                = (Ret (None, None, PNone),
                   World (session w') (shown w' ++ evs))) /\
    filter is_request evs = [requests_get (geocode_url (address_box inp)) 10] /\
    (forall e,
       request_failure (http_get env (geocode_url (address_box inp))) = Some e ->
       In (st_error ("Geocoding API failed: " ++ exn_str e)) evs)).
  { destruct Hfail as [Hz | [e He]].
    - exists [requests_get (geocode_url (address_box inp)) 10].
      split; [ intros w'; now apply geocode_address_zero_matches | ].
      split; [ reflexivity | ].
      intros e He. exfalso. destruct Hz as (r & Hget & Hs & _).
      rewrite Hget in He. simpl in He. rewrite Hs in He. discriminate.
    - exists [requests_get (geocode_url (address_box inp)) 10;
              st_error ("Geocoding API failed: " ++ exn_str e)].
      split; [ intros w'; now apply geocode_address_failure | ].
      split; [ reflexivity | ].
      intros e' He'. rewrite He in He'. injection He' as <-.
      right. left. reflexivity. }
  destruct Hgeo as (evs & Hg & Hreq & Herr).
  assert (Hp' : pressed inp <> Some GenerateAISummary)
    by (rewrite Hp; discriminate).
  rewrite (run_after_analysis secrets env inp s
             (analyze_site_unresolved env inp evs (World s (heading inp)) Hp Hg)).
  cbn [session shown].
  destruct (render_within secrets env inp Hp'
              (World s (heading inp
                        ++ st_button "Analyze Site"
                           :: st_spinner "Analyzing..." :: evs)))
    as (evs' & Hs & Hev & Hsess & _).
  rewrite Hs, <- Hsess. cbn [shown session].
  split; [ intros w; now rewrite Hg | ].
  split; [ | split; [ reflexivity | ] ].
  - rewrite !filter_app. cbn [filter heading is_request]. rewrite Hreq.
    rewrite (render_events_no_request Hev). reflexivity.
  - intros e He. apply in_app_iff. left. apply in_app_iff. right.
    right. right. now apply Herr.
Qed.

Lemma failed_geocoding_stops_the_analysis_witness :
  (forall w, fst (geocode_address (RT := reference_runtime)
                    unreachable_geocoder
                    (address_box (press AnalyzeSite)) w)
             = Ret (None, None, PNone)) /\
  filter is_request
    (shown (snd (run (RT := reference_runtime) some_keys unreachable_geocoder
                   (press AnalyzeSite) Session.initial)))
  = [requests_get (geocode_url (address_box (press AnalyzeSite))) 10] /\
  session (snd (run (RT := reference_runtime) some_keys unreachable_geocoder
                  (press AnalyzeSite) Session.initial))
  = Session.initial /\
  (forall e,
     request_failure (http_get unreachable_geocoder
                        (geocode_url (address_box (press AnalyzeSite))))
     = Some e ->
     In (st_error ("Geocoding API failed: " ++ exn_str e))
        (shown (snd (run (RT := reference_runtime) some_keys
                       unreachable_geocoder (press AnalyzeSite)
                       Session.initial)))).
Proof.
  apply (failed_geocoding_stops_the_analysis (RT := reference_runtime)
           some_keys unreachable_geocoder (press AnalyzeSite) Session.initial).
  - reflexivity.
  - right. eexists. reflexivity.
Defined.

(** What the run shows when the endpoint finds nothing: the spinner, the
    request, and no message of any kind. *)
Example zero_matches_show_nothing :
  run (RT := reference_runtime) some_keys no_match_geocoder
    (press AnalyzeSite) Session.initial
  = (Ret tt,
     World Session.initial
       (heading (press AnalyzeSite)
        ++ [st_button "Analyze Site"; st_spinner "Analyzing...";
            requests_get (geocode_url (address_box (press AnalyzeSite))) 10])).
Proof. reflexivity. Qed.

(** C1, as stated, fails: the geocoding endpoint answers with status 300, a
    status that is not a 2xx, and an array with one entry; [geocode_address]
    returns coordinates, the catalogue is asked and a report is stored. *)
Lemma status_300_geocoding_is_resolved :
  (exists r,
     http_get multiple_choices_geocoder
       (geocode_url (address_box (press AnalyzeSite))) = Ret r /\
     (status_code r <? 200) || (299 <? status_code r) = true) /\
  fst (geocode_address (RT := reference_runtime) multiple_choices_geocoder
         (address_box (press AnalyzeSite)) (World Session.initial []))
  = Ret (Some (S754_finite false 5266687521612321 (-47)),
         Some (S754_finite true 8590904076262285 (-46)),
         PStr "Google Building 41, 1600, Amphitheatre Parkway, Mountain View, California, 94043, United States") /\
  (exists ev,
     In ev (shown (snd (run (RT := reference_runtime) some_keys
                          multiple_choices_geocoder (press AnalyzeSite)
                          Session.initial))) /\
     is_usgs_request ev = true) /\
  (exists report,
     Session.df (session (snd (run (RT := reference_runtime) some_keys
                                 multiple_choices_geocoder (press AnalyzeSite)
                                 Session.initial)))
     = Some report /\ List.length report = 2%nat).
Proof.
  split; [ eexists; split; reflexivity | ].
  split; [ reflexivity | ].
  split.
  - eexists. split.
    + vm_compute. do 7 right. left. reflexivity.
    + reflexivity.
  - eexists. split; reflexivity.
Qed.

(* ===================================================================== *)
(** * The handler when the address is resolved *)
(* ===================================================================== *)

Section Resolved.
Context {RT : Runtime}.
Variable secrets : list (string * string).
Variable env : services.

Lemma geocode_address_resolved address lat lon name :
  (forall w, fst (geocode_address env address w) = Ret (Some lat, Some lon, name)) ->
  exists evs,
    uniform (geocode_address env address) (Ret (Some lat, Some lon, name)) evs.
Proof.
  intros H. destruct (geocode_address_steady env address) as (r & evs & Hu).
  exists evs. specialize (H (World Session.initial [])).
  rewrite Hu in H. simpl in H. subst r. exact Hu.
Qed.

Lemma get_nearby_earthquakes_returned lat lon radius_km df :
  (forall w, fst (get_nearby_earthquakes env lat lon radius_km w) = Ret df) ->
  exists evs,
    uniform (get_nearby_earthquakes env lat lon radius_km) (Ret df)
      (requests_get (usgs_url lat lon radius_km) 10 :: evs).
Proof.
  intros H.
  destruct (get_nearby_earthquakes_steady env lat lon radius_km)
    as (r & evs & Hu).
  pose proof (H (World Session.initial [])) as H0.
  rewrite Hu in H0. simpl in H0. subst r.
  assert (Hfirst : exists rest,
            shown (snd (get_nearby_earthquakes env lat lon radius_km
                          (World Session.initial [])))
            = requests_get (usgs_url lat lon radius_km) 10 :: rest).
  { unfold get_nearby_earthquakes, get. unfold try_except, bind, emit, lift.
    cbn [session shown app fst snd].
    repeat (match goal with
            | |- context [match ?x with Ret _ => _ | Raise _ => _ end] =>
                destruct x
            | |- context [if ?x then _ else _] => destruct x
            end; cbn [session shown app fst snd ret]);
      eexists; reflexivity. }
  destruct Hfirst as (rest & Hfirst). rewrite Hu in Hfirst. simpl in Hfirst.
  exists rest. rewrite <- Hfirst. exact Hu.
Qed.

(** The handler, when the address is resolved to coordinates that are both
    different from zero and the Fetcher returns. *)
Lemma analyze_site_resolved inp lat lon name evs df evs' w :
  pressed inp = Some AnalyzeSite ->
  uniform (geocode_address env (address_box inp))
    (Ret (Some lat, Some lon, name)) evs ->
  truthy_float lat = true -> truthy_float lon = true ->
  uniform (get_nearby_earthquakes env lat lon 100) (Ret df) evs' ->
  analyze_site env inp w
  = (Ret tt,
     World
       (Session.Build (Some lat) (Some lon) (Some name) (Some df)
          (Session.summary (session w)))
       (shown w
        ++ st_button "Analyze Site" :: st_spinner "Analyzing..." :: evs
        ++ evs'
        ++ [st_success ("Successfully analyzed: **" ++ py_str name ++ "**")])).
Proof.
  intros Hp Hg Hlat Hlon Hf. unfold analyze_site, button_pressed.
  unfold bind at 1 2 3 4. unfold emit. cbn [fst snd session shown ret].
  rewrite Hp. cbn [button_eqb]. unfold bind at 1. rewrite Hg.
  rewrite Hlat, Hlon. cbn [andb].
  unfold bind at 1 2 3 4. unfold update_session. cbn [session shown].
  rewrite Hf.
  unfold bind, update_session, emit. cbn [session shown].
  unfold Session.set_df, Session.set_full_address, Session.set_lon,
    Session.set_lat. cbn [Session.lat Session.lon Session.full_address
                          Session.df Session.summary].
  repeat rewrite <- app_assoc. reflexivity.
Qed.


(** What C2 asks for holds away from zero: in a run caused by the Analyze
    Site button, when the address is resolved to a latitude and a longitude
    that are both different from zero and the Fetcher returns a report, the
    catalogue was asked with these coordinates, and the latitude, the
    longitude, the display name and the report are in the session. *)
Lemma nonzero_resolution_is_analysed inp s lat lon name df :
  pressed inp = Some AnalyzeSite ->
  (forall w, fst (geocode_address env (address_box inp) w)
             = Ret (Some lat, Some lon, name)) ->
  truthy_float lat = true -> truthy_float lon = true ->
  (forall w, fst (get_nearby_earthquakes env lat lon 100 w) = Ret df) ->
  session (snd (run secrets env inp s))
  = Session.Build (Some lat) (Some lon) (Some name) (Some df)
      (Session.summary s) /\
  In (requests_get (usgs_url lat lon 100) 10)
     (shown (snd (run secrets env inp s))).
Proof.
  intros Hp Hg Hlat Hlon Hf.
  destruct (geocode_address_resolved _ Hg) as (evs & Hgu).
  destruct (get_nearby_earthquakes_returned _ _ _ Hf) as (evs' & Hfu).
  assert (Hp' : pressed inp <> Some GenerateAISummary)
    by (rewrite Hp; discriminate).
  rewrite (run_after_analysis secrets env inp s
             (analyze_site_resolved inp (World s (heading inp))
                Hp Hgu Hlat Hlon Hfu)).
  cbn [session shown].
  match goal with
  | |- context [bind (report_section secrets env inp) _ ?W] =>
      destruct (render_within secrets env inp Hp' W)
        as (evs'' & Hs & _ & Hsess & _)
  end.
  rewrite Hs, <- Hsess. cbn [session shown]. split; [ reflexivity | ].
  apply in_app_iff. left. apply in_app_iff. right. right. right.
  apply in_app_iff. right. left. reflexivity.
Qed.

(** The handler, when one of the coordinates is zero. *)
Lemma analyze_site_zero_coordinate inp lat lon name evs w :
  pressed inp = Some AnalyzeSite ->
  uniform (geocode_address env (address_box inp))
    (Ret (Some lat, Some lon, name)) evs ->
  truthy_float lat && truthy_float lon = false ->
  analyze_site env inp w
  = (Ret tt,
     World (session w)
       (shown w ++ st_button "Analyze Site" :: st_spinner "Analyzing..." :: evs)).
Proof.
  intros Hp Hg Hzero. unfold analyze_site, button_pressed.
  unfold bind at 1 2 3 4. unfold emit. cbn [fst snd session shown ret].
  rewrite Hp. cbn [button_eqb]. unfold bind at 1. rewrite Hg. rewrite Hzero.
  unfold ret. cbn [session shown]. repeat rewrite <- app_assoc. reflexivity.
Qed.

(** Whatever the address, a resolution with a latitude or a longitude equal
    to zero is dropped: the run leaves the session as it was and asks the
    catalogue nothing. *)
Lemma zero_coordinate_is_dropped inp s lat lon name :
  pressed inp = Some AnalyzeSite ->
  (forall w, fst (geocode_address env (address_box inp) w)
             = Ret (Some lat, Some lon, name)) ->
  truthy_float lat && truthy_float lon = false ->
  session (snd (run secrets env inp s)) = s /\
  filter is_usgs_request (shown (snd (run secrets env inp s))) = [].
Proof.
  intros Hp Hg Hzero.
  destruct (geocode_address_resolved _ Hg) as (evs & Hgu).
  assert (Hp' : pressed inp <> Some GenerateAISummary)
    by (rewrite Hp; discriminate).
  rewrite (run_after_analysis secrets env inp s
             (analyze_site_zero_coordinate inp (World s (heading inp))
                Hp Hgu Hzero)).
  cbn [session shown].
  match goal with
  | |- context [bind (report_section secrets env inp) _ ?W] =>
      destruct (render_within secrets env inp Hp' W)
        as (evs' & Hs & Hev & Hsess & _)
  end.
  rewrite Hs, <- Hsess. cbn [session shown]. split; [ reflexivity | ].
  rewrite !filter_app. cbn [filter heading is_usgs_request app].
  assert (Hgeo : filter is_usgs_request evs = []).
  { destruct (geocode_address_within env (address_box inp)
                (World Session.initial [])) as (evs0 & Hs0 & He0 & _).
    rewrite Hgu in Hs0. cbn [snd shown app] in Hs0. subst evs0.
    clear - He0. induction He0 as [| ev evs Hev _ IH]; [ reflexivity | ].
    cbn [filter]. rewrite IH.
    destruct ev as [[] | | | | | | | | | | | | | | | |];
      try reflexivity; discriminate Hev. }
  rewrite Hgeo. cbn [app].
  clear - Hev. induction Hev as [| ev evs Hev _ IH]; [ reflexivity | ].
  cbn [filter]. rewrite IH.
  destruct ev as [[] | | | | | | | | | | | | | | | |];
    try reflexivity; discriminate Hev.
Qed.

End Resolved.

(* ===================================================================== *)
(** * When the Fetcher fails *)
(* ===================================================================== *)





(* ===================================================================== *)
(** * A coordinate equal to zero *)
(* ===================================================================== *)

(** C2, at an address whose longitude is 0.0: [geocode_address] returns the
    latitude, the longitude and the display name, but [if lat and lon] takes
    the zero for a missing value: the catalogue is not asked, nothing is
    stored in the session and nothing is shown. *)
Theorem zero_longitude_is_not_analysed :
  fst (geocode_address (RT := reference_runtime) meridian_geocoder
         (address_box (press AnalyzeSite)) (World Session.initial []))
  = Ret (Some (S754_finite false 7244870351806739 (-47)),
         Some (S754_zero false),
         PStr "Prime Meridian, Greenwich, London, United Kingdom") /\
  run (RT := reference_runtime) some_keys meridian_geocoder
    (press AnalyzeSite) Session.initial
  = (Ret tt,
     World Session.initial
       (heading (press AnalyzeSite)
        ++ [st_button "Analyze Site"; st_spinner "Analyzing...";
            requests_get (geocode_url (address_box (press AnalyzeSite))) 10])).
Proof. split; reflexivity. Qed.

(** The same press at an address with no zero coordinate: the catalogue is
    asked with the coordinates returned and the four results are stored. *)
Example resolved_address_is_analysed :
  session (snd (run (RT := reference_runtime) some_keys calm_services
                  (press AnalyzeSite) Session.initial))
  = Session.Build
      (Some (S754_finite false 5266687521612321 (-47)))
      (Some (S754_finite true 8590904076262285 (-46)))
      (Some (PStr "Google Building 41, 1600, Amphitheatre Parkway, Mountain View, California, 94043, United States"))
      (Some [Quake.Build (PStr "5 km NE of San Jose, CA") (PFloat f1_75)
               (Timestamp 1700000000000000000) (PFloat f37_25) (PFloat fm121_5);
             Quake.Build (PStr "3 km W of Cupertino, CA") (PFloat f2_5)
               (Timestamp 1699990000000000000) (PFloat f37_25) (PFloat fm121_5)])
      None /\
  In (requests_get
        (usgs_url (S754_finite false 5266687521612321 (-47))
           (S754_finite true 8590904076262285 (-46)) 100) 10)
     (shown (snd (run (RT := reference_runtime) some_keys calm_services
                    (press AnalyzeSite) Session.initial))).
Proof. split; [ reflexivity | vm_compute; do 7 right; left; reflexivity ]. Qed.

(* ===================================================================== *)
(** * The greatest magnitude *)
(* ===================================================================== *)








(* ===================================================================== *)
(** * The Narrative Generator *)
(* ===================================================================== *)

Section Narrative.
Context {RT : Runtime}.
Variable secrets : list (string * string).
Variable env : services.

Lemma series_max_numeric df xs :
  numeric_magnitudes df xs ->
  series_max (magnitudes df) = Ret (PFloat (nanmax xs)).
Proof. unfold numeric_magnitudes, series_max. now intros ->. Qed.

Lemma generate_ai_summary_calls address_name df xs w :
  API_KEY_CONFIGURED secrets = true ->
  numeric_magnitudes df xs ->
  exists prompt,
    generate_ai_summary secrets env address_name df w
    = (Ret (text_of (generate_text env model_name prompt)),
       World (session w) (shown w ++ [generate_content model_name prompt])) /\
    prompt
    = match df with
      | [] =>
          "Write a brief, one-paragraph site analysis summary for the location: "
          ++ py_str address_name
          ++ ". State that no recent seismic activity was found in the immediate vicinity, which is a positive sign for geological stability."
      | _ =>
          "Write a brief, one-paragraph site analysis summary for the location: "
          ++ py_str address_name ++ ". "
          ++ "The analysis found " ++ str_of_int (len df)
          ++ " recent seismic events nearby. "
          ++ "The largest magnitude was " ++ format_2f (nanmax xs) ++ ". "
          ++ "Briefly explain what this might mean for a site risk assessment in a professional but easy-to-understand tone."
      end.
Proof.
  intros Hk Hnum. unfold generate_ai_summary. rewrite Hk. cbn [negb].
  destruct df as [| q df].
  - eexists. split; [ | reflexivity ].
    cbn [empty]. unfold bind at 1. unfold ret at 1.
    unfold try_except, bind, emit, lift. cbn [session shown].
    unfold model_name, text_of.
    destruct (generate_text env _ _); reflexivity.
  - eexists. split; [ | reflexivity ].
    cbn [empty]. unfold bind at 1. unfold bind at 1.
    rewrite (series_max_numeric Hnum). unfold lift at 1.
    unfold bind at 1. unfold lift at 1. cbn [py_format_2f].
    unfold ret at 1.
    unfold try_except, bind, emit, lift. cbn [session shown].
    unfold model_name, text_of.
    destruct (generate_text env _ _); reflexivity.
Qed.

End Narrative.



(** The prompt of that report, in full. *)
Example prompt_of_two_records :
  shown (snd (generate_ai_summary (RT := reference_runtime) some_keys
                calm_services (PStr "Mountain View") two_records
                (World Session.initial [])))
  = [generate_content "gemini-1.5-flash-latest"
       "Write a brief, one-paragraph site analysis summary for the location: Mountain View. The analysis found 2 recent seismic events nearby. The largest magnitude was 2.50. Briefly explain what this might mean for a site risk assessment in a professional but easy-to-understand tone."].
Proof. reflexivity. Qed.

(** C7.  For any display name and any report whose magnitudes are numbers
    or nulls, [generate_ai_summary] returns a string and raises nothing.
    Without the credential the string is the fixed message and nothing is
    called; with it, the service is called once, and when that call raises
    the string is the message carrying [str(e)]. *)
Theorem summary_is_always_text {RT : Runtime}
    (secrets : list (string * string)) (env : services)
    (address_name : pyval) (df : DataFrame) (xs : list float) (w : world) :
  numeric_magnitudes df xs ->
  exists text,
    fst (generate_ai_summary secrets env address_name df w) = Ret text /\
    (API_KEY_CONFIGURED secrets = false ->
       text = not_configured_message /\
       snd (generate_ai_summary secrets env address_name df w) = w) /\
    (API_KEY_CONFIGURED secrets = true ->
       exists prompt,
         shown (snd (generate_ai_summary secrets env address_name df w))
         = (shown w ++ [generate_content "gemini-1.5-flash-latest" prompt])%list /\
         (forall e,
            generate_text env "gemini-1.5-flash-latest" prompt = Raise e ->
            text = "An error occurred with the AI model: " ++ exn_str e) /\
         (forall answer,
            generate_text env "gemini-1.5-flash-latest" prompt = Ret answer ->
            text = answer)).
Proof.
  intros Hnum. destruct (API_KEY_CONFIGURED secrets) eqn:Hk.
  - destruct (generate_ai_summary_calls secrets env address_name w Hk Hnum)
      as (prompt & Hrun & _).
    exists (text_of (generate_text env model_name prompt)).
    rewrite Hrun. split; [ reflexivity | split; [ discriminate | ] ].
    intros _. exists prompt. split; [ reflexivity | ].
    unfold model_name.
    split; [ intros e He | intros answer Ha ];
      [ rewrite He | rewrite Ha ]; reflexivity.
  - exists not_configured_message.
    rewrite generate_ai_summary_not_configured by exact Hk.
    split; [ reflexivity | split; [ auto | discriminate ] ].
Qed.

Lemma summary_is_always_text_witness :
  exists text,
    fst (generate_ai_summary (RT := reference_runtime) some_keys failing_model
           (PStr "Mountain View") two_records (World Session.initial []))
    = Ret text /\
    (API_KEY_CONFIGURED some_keys = false ->
       text = not_configured_message /\
       snd (generate_ai_summary (RT := reference_runtime) some_keys
              failing_model (PStr "Mountain View") two_records
              (World Session.initial []))
       = World Session.initial []) /\
    (API_KEY_CONFIGURED some_keys = true ->
       exists prompt,
         shown (snd (generate_ai_summary (RT := reference_runtime) some_keys
                       failing_model (PStr "Mountain View") two_records
                       (World Session.initial [])))
         = [generate_content "gemini-1.5-flash-latest" prompt] /\
         (forall e,
            generate_text failing_model "gemini-1.5-flash-latest" prompt
            = Raise e ->
            text = "An error occurred with the AI model: " ++ exn_str e) /\
         (forall answer,
            generate_text failing_model "gemini-1.5-flash-latest" prompt
            = Ret answer ->
            text = answer)).
Proof.
  apply (summary_is_always_text (RT := reference_runtime) some_keys
           failing_model (PStr "Mountain View") (df := two_records)
           (xs := [f1_75; f2_5]) (World Session.initial [])).
  reflexivity.
Defined.

(** What comes back in the three situations. *)
Example summary_when_service_fails :
  fst (generate_ai_summary (RT := reference_runtime) some_keys failing_model
         (PStr "Mountain View") two_records (World Session.initial []))
  = Ret "An error occurred with the AI model: 429 Quota exceeded".
Proof. reflexivity. Qed.

Example summary_without_credential :
  generate_ai_summary (RT := reference_runtime) [] failing_model
    (PStr "Mountain View") two_records (World Session.initial [])
  = (Ret "AI model is not configured. Please add your GOOGLE_API_KEY to the Streamlit secrets.",
     World Session.initial []).
Proof. reflexivity. Qed.

Example summary_when_service_answers :
  fst (generate_ai_summary (RT := reference_runtime) some_keys calm_services
         (PStr "Mountain View") [] (World Session.initial []))
  = Ret "A short summary.".
Proof. reflexivity. Qed.

(* ===================================================================== *)
(** * Two decimals *)
(* ===================================================================== *)

(** [div_half_even n d] is an integer nearest to [n / d]. *)
Lemma div_half_even_nearest n d :
  0 < d -> - d <= 2 * (n - div_half_even n d * d) <= d.
Proof.
  intros Hd. unfold div_half_even.
  pose proof (Z.div_mod n d ltac:(lia)) as Hdiv.
  pose proof (Z.mod_pos_bound n d Hd) as Hmod.
  destruct (Z.compare_spec (2 * (n mod d)) d);
    [ destruct (Z.even (n / d)) | | ]; nia.
Qed.

Lemma two_digits_length n :
  0 <= n < 100 -> String.length (two_digits n) = 2%nat.
Proof.
  intros H. rewrite <- (Z2Nat.id n) by lia.
  assert (Hk : (Z.to_nat n < 100)%nat) by lia.
  remember (Z.to_nat n) as k eqn:Ek. clear - Hk.
  do 100 (destruct k as [| k]; [ reflexivity | ]). lia.
Qed.

(** A finite float is written with a sign, an integer part, a point and two
    digits. *)
Lemma format_2f_two_decimals s m e :
  exists whole frac,
    format_2f (S754_finite s m e) = sign_str s ++ whole ++ "." ++ frac /\
    String.length frac = 2%nat.
Proof.
  exists (str_of_int (hundredths m e / 100)), (two_digits (hundredths m e mod 100)).
  split; [ reflexivity | ].
  apply two_digits_length, Z.mod_pos_bound. lia.
Qed.

Example format_2f_examples :
  format_2f f2_5 = "2.50" /\
  format_2f (S754_finite false 1 (-3)) = "0.12" /\
  format_2f (S754_finite false 3 (-3)) = "0.38" /\
  format_2f (S754_finite true 7205759403792794 (-56)) = "-0.10" /\
  format_2f (S754_finite false 5584463537939415 (-50)) = "4.96".
Proof. repeat split. Qed.

(* ===================================================================== *)
(** * The narrative text in the session *)
(* ===================================================================== *)

(** C9.  A run caused by the Analyze Site button leaves the narrative text of
    the session as it was; the text changes only in a run caused by the
    Generate AI Summary button; and a run that reaches its end has drawn the
    narrative text the session holds, wherever that text came from. *)
Theorem narrative_kept_and_rendered {RT : Runtime}
    (secrets : list (string * string)) (env : services)
    (inp : interaction) (s : Session.t) :
  (pressed inp = Some AnalyzeSite ->
     Session.summary (session (snd (run secrets env inp s)))
     = Session.summary s) /\
  (Session.summary (session (snd (run secrets env inp s)))
   <> Session.summary s ->
     pressed inp = Some GenerateAISummary) /\
  (forall text,
     fst (run secrets env inp s) = Ret tt ->
     Session.summary (session (snd (run secrets env inp s))) = Some text ->
     In (st_markdown text) (shown (snd (run secrets env inp s)))).
Proof.
  assert (Hkeep : pressed inp <> Some GenerateAISummary ->
                  Session.summary (session (snd (run secrets env inp s)))
                  = Session.summary s).
  { intros Hp.
    destruct (script_same_summary secrets env inp Hp (World s []))
      as (evs & _ & _ & Hsame & _).
    exact Hsame. }
  split; [ | split ].
  - intros Hp. apply Hkeep. rewrite Hp. discriminate.
  - intros Hchanged.
    destruct (pressed inp) as [[] |] eqn:Hp; try reflexivity;
      exfalso; apply Hchanged, Hkeep; discriminate.
  - intros text Hret Hsum.
    apply (script_renders_summary secrets env inp s); [ | exact Hsum ].
    unfold run in *. destruct (script secrets env inp (World s [])) as [o w].
    simpl in Hret. subst o. reflexivity.
Qed.

(** A narrative generated for one address is still there, and drawn, after
    another address is analysed. *)
Example stale_narrative_is_drawn :
  let steps := [(calm_services, press AnalyzeSite);
                (calm_services, press GenerateAISummary);
                (calm_services, Interaction "Somewhere else" (Some AnalyzeSite))] in
  match runs (RT := reference_runtime) some_keys steps Session.initial with
  | [_; _; (r, w)] =>
      r = Ret tt /\
      Session.summary (session w) = Some "A short summary." /\
      In (st_markdown "A short summary.") (shown w)
  | _ => False
  end.
Proof.
  vm_compute. repeat split. repeat first [ left; reflexivity | right ].
Qed.

(* ===================================================================== *)
(** * Without the credential *)
(* ===================================================================== *)



(* ===================================================================== *)
(** * The outcomes of the functions and of the handlers *)
(* ===================================================================== *)

Section Parts.
Context {RT : Runtime}.
Variable secrets : list (string * string).
Variable env : services.

Lemma report_section_parts inp :
  report_section secrets env inp
  = (s <- get_session ;;
     match Session.df s with
     | None => ret tt
     | Some df =>
         emit (st_subheader "Seismic Activity Report") ;;
         draw_report df ;;
         emit (st_subheader "🤖 AI-Powered Summary") ;;
         summary_control secrets env inp
     end).
Proof. reflexivity. Qed.

End Parts.

Ltac split_cases :=
  repeat (match goal with
          | |- context [match ?x with Ret _ => _ | Raise _ => _ end] =>
              destruct x eqn:?
          | |- context [if ?x then _ else _] => destruct x eqn:?
          end; cbn [session shown app fst snd ret]).

Section Shapes.
Context {RT : Runtime}.
Variable secrets : list (string * string).
Variable env : services.

Lemma geocode_address_shape address :
  exists r evs,
    uniform (geocode_address env address) r evs /\
    filter is_request evs = [requests_get (geocode_url address) 10] /\
    filter is_generate_content evs = [] /\
    match r with
    | Ret (Some _, Some _, _) => evs = [requests_get (geocode_url address) 10]
    | Ret (None, None, PNone) => True
    | Ret _ => False
    | Raise e =>
        is_RequestException e = false /\
        evs = [requests_get (geocode_url address) 10]
    end.
Proof.
  destruct (geocode_address_steady env address) as (r & evs & Hu).
  exists r, evs. split; [ exact Hu | ].
  pose proof (Hu (World Session.initial [])) as H0. cbn [session shown app] in H0.
  revert H0. clear Hu.
  unfold geocode_address, get. unfold try_except, bind, emit, lift.
  cbn [session shown app fst snd ret].
  split_cases; intros [= <- <-]; cbn [filter is_request is_generate_content];
    auto.
Qed.

Lemma get_nearby_earthquakes_shape lat lon radius_km :
  exists r evs,
    uniform (get_nearby_earthquakes env lat lon radius_km) r evs /\
    filter is_request evs = [requests_get (usgs_url lat lon radius_km) 10] /\
    filter is_generate_content evs = [] /\
    match r with
    | Ret _ => True
    | Raise e =>
        is_RequestException e = false /\
        evs = [requests_get (usgs_url lat lon radius_km) 10]
    end.
Proof.
  destruct (get_nearby_earthquakes_steady env lat lon radius_km)
    as (r & evs & Hu).
  exists r, evs. split; [ exact Hu | ].
  pose proof (Hu (World Session.initial [])) as H0. cbn [session shown app] in H0.
  revert H0. clear Hu.
  unfold get_nearby_earthquakes, get. unfold try_except, bind, emit, lift.
  cbn [session shown app fst snd ret].
  split_cases; intros [= <- <-]; cbn [filter is_request is_generate_content];
    auto.
Qed.

Lemma generate_ai_summary_steady address_name df :
  steady (generate_ai_summary secrets env address_name df).
Proof. unfold generate_ai_summary. steadily. Qed.

Lemma generate_ai_summary_shape address_name df :
  exists r evs,
    uniform (generate_ai_summary secrets env address_name df) r evs /\
    match r with
    | Ret text =>
        (API_KEY_CONFIGURED secrets = false /\ evs = []) \/
        (API_KEY_CONFIGURED secrets = true /\
         exists prompt,
           evs = [generate_content "gemini-1.5-flash-latest" prompt] /\
           text = text_of (generate_text env "gemini-1.5-flash-latest" prompt))
    | Raise e =>
        API_KEY_CONFIGURED secrets = true /\ evs = [] /\
        (let? m := series_max (magnitudes df) in py_format_2f m) = Raise e
    end.
Proof.
  destruct (generate_ai_summary_steady address_name df) as (r & evs & Hu).
  exists r, evs. split; [ exact Hu | ].
  pose proof (Hu (World Session.initial [])) as H0. cbn [session shown app] in H0.
  revert H0. clear Hu.
  unfold generate_ai_summary.
  destruct (API_KEY_CONFIGURED secrets); cbn [negb].
  - destruct df as [| q df]; cbn [empty].
    + unfold try_except, bind, emit, lift, ret. cbn [session shown app].
      destruct (generate_text env _ _) eqn:Hg; intros [= <- <-];
        right; (split; [ reflexivity | ]); eexists; (split; [ reflexivity | ]);
        exact (eq_sym (f_equal text_of Hg)).
    + unfold try_except, bind, emit, lift, ret. cbn [session shown app].
      destruct (series_max (magnitudes (q :: df))) as [m | e];
        [ | intros [= <- <-]; auto ].
      cbn [obind].
      destruct (py_format_2f m) as [largest | e]; [ | intros [= <- <-]; auto ].
      cbn [session shown app].
      destruct (generate_text env _ _) eqn:Hg; intros [= <- <-];
        right; (split; [ reflexivity | ]); eexists; (split; [ reflexivity | ]);
        exact (eq_sym (f_equal text_of Hg)).
  - unfold ret. intros [= <- <-]. left. auto.
Qed.

Lemma analyze_site_not_pressed inp w :
  pressed inp <> Some AnalyzeSite ->
  analyze_site env inp w
  = (Ret tt, World (session w) (shown w ++ [st_button "Analyze Site"])).
Proof.
  intros Hp. unfold analyze_site, button_pressed, bind, emit, ret.
  cbn [session shown].
  destruct (pressed inp) as [[] |]; try reflexivity. congruence.
Qed.

Lemma analyze_site_geocode_raises inp e evs w :
  pressed inp = Some AnalyzeSite ->
  uniform (geocode_address env (address_box inp)) (Raise e) evs ->
  analyze_site env inp w
  = (Raise e,
     World (session w)
       (shown w ++ st_button "Analyze Site" :: st_spinner "Analyzing..." :: evs)).
Proof.
  intros Hp Hg. unfold analyze_site, button_pressed.
  unfold bind at 1 2 3 4. unfold emit. cbn [fst snd session shown ret].
  rewrite Hp. cbn [button_eqb]. unfold bind at 1. rewrite Hg.
  cbn [session shown]. repeat rewrite <- app_assoc. reflexivity.
Qed.

Lemma analyze_site_fetch_raises inp lat lon name evs e evs' w :
  pressed inp = Some AnalyzeSite ->
  uniform (geocode_address env (address_box inp))
    (Ret (Some lat, Some lon, name)) evs ->
  truthy_float lat = true -> truthy_float lon = true ->
  uniform (get_nearby_earthquakes env lat lon 100) (Raise e) evs' ->
  analyze_site env inp w
  = (Raise e,
     World
       (Session.Build (Some lat) (Some lon) (Some name)
          (Session.df (session w)) (Session.summary (session w)))
       (shown w
        ++ st_button "Analyze Site" :: st_spinner "Analyzing..." :: evs
        ++ evs')).
Proof.
  intros Hp Hg Hlat Hlon Hf. unfold analyze_site, button_pressed.
  unfold bind at 1 2 3 4. unfold emit. cbn [fst snd session shown ret].
  rewrite Hp. cbn [button_eqb]. unfold bind at 1. rewrite Hg.
  rewrite Hlat, Hlon. cbn [andb].
  unfold bind at 1 2 3 4. unfold update_session. cbn [session shown].
  rewrite Hf.
  unfold Session.set_df, Session.set_full_address, Session.set_lon,
    Session.set_lat. cbn [Session.lat Session.lon Session.full_address
                          Session.df Session.summary session shown].
  repeat rewrite <- app_assoc. reflexivity.
Qed.

Lemma analyze_site_analysis inp w :
  analysis inp w (analyze_site env inp w).
Proof.
  destruct (pressed inp) as [b |] eqn:Hp;
    [ destruct b | ];
    try (rewrite analyze_site_not_pressed by (rewrite Hp; discriminate);
         apply analysis_not_pressed; rewrite Hp; discriminate).
  destruct (geocode_address_shape (address_box inp))
    as (r & evs & Hu & Hreq & _ & Hr).
  destruct r as [[[[lat |] [lon |]] name] | e]; try contradiction.
  - subst evs.
    destruct (truthy_float lat && truthy_float lon) eqn:Ht.
    + apply andb_true_iff in Ht. destruct Ht as [Hlat Hlon].
      destruct (get_nearby_earthquakes_shape lat lon 100)
        as (r' & evs' & Hu' & Hreq' & _ & Hr').
      destruct r' as [df | e].
      * rewrite (analyze_site_resolved inp w Hp Hu Hlat Hlon Hu').
        apply analysis_stored; [ exact Hp | ].
        cbn [app filter is_request]. rewrite filter_app, Hreq'. reflexivity.
      * rewrite (analyze_site_fetch_raises inp w Hp Hu Hlat Hlon Hu').
        apply analysis_interrupted; [ exact Hp | ].
        cbn [app filter is_request]. rewrite Hreq'. reflexivity.
    + rewrite (analyze_site_zero_coordinate inp w Hp Hu Ht).
      apply analysis_stopped; [ exact Hp | reflexivity ].
  - destruct name; try contradiction.
    rewrite (analyze_site_unresolved env inp evs w Hp Hu).
    apply analysis_stopped; assumption.
  - destruct Hr as [_ ->].
    rewrite (analyze_site_geocode_raises inp w Hp Hu).
    apply analysis_stopped; [ exact Hp | reflexivity ].
Qed.

Lemma bind_assoc A B C (m : M A) (k : A -> M B) (k' : B -> M C) w :
  bind (bind m k) k' w = bind m (fun a => bind (k a) k') w.
Proof. unfold bind. destruct (m w) as [[a | e] w']; reflexivity. Qed.

Lemma report_section_absent inp w :
  Session.df (session w) = None -> report_section secrets env inp w = (Ret tt, w).
Proof.
  intros H. rewrite report_section_parts. unfold bind, get_session.
  rewrite H. reflexivity.
Qed.

Lemma report_section_present inp w df :
  Session.df (session w) = Some df ->
  report_section secrets env inp w
  = bind (report_head df) (fun _ => summary_control secrets env inp) w.
Proof.
  intros H. rewrite report_section_parts.
  unfold report_head, bind, get_session, emit. cbn [session shown].
  rewrite H. destruct (draw_report df _) as [[[] | e] w']; reflexivity.
Qed.

Lemma report_head_within df :
  within (each is_report_event) eq anything (report_head df).
Proof. unfold report_head, draw_report. repeat step. Qed.

Lemma report_head_located df w lat lon :
  Session.lat (session w) = Some lat ->
  Session.lon (session w) = Some lon ->
  report_head df w
  = (Ret tt,
     World (session w)
       (shown w ++ report_events df lat lon ++ [summary_subheader])).
Proof.
  intros Hlat Hlon. unfold report_head, draw_report, summary_subheader.
  destruct df as [| q df]; cbn [empty negb report_events];
    unfold bind, emit, read_attr; cbn [session shown];
    rewrite Hlat; cbn [session shown]; rewrite Hlon; cbn [session shown];
    repeat rewrite <- app_assoc; reflexivity.
Qed.

Lemma summary_control_narration inp w :
  narration secrets env inp w (summary_control secrets env inp w).
Proof.
  unfold summary_control.
  destruct (API_KEY_CONFIGURED secrets) eqn:Hk; cbn [negb].
  2: { apply narration_disabled. exact Hk. }
  assert (Hidle : pressed inp <> Some GenerateAISummary ->
            narration secrets env inp w
              (bind (button_pressed inp "Generate AI Summary" GenerateAISummary)
                 (fun clicked =>
                    if clicked then
                      emit (st_spinner "AI is thinking...") ;;
                      full_address <- read_attr "full_address" Session.full_address ;;
                      df <- read_attr "df" Session.df ;;
                      summary <- generate_ai_summary secrets env full_address df ;;
                      update_session (Session.set_summary summary)
                    else ret tt) w)).
  { intros Hp. unfold button_pressed, bind, emit, ret. cbn [session shown].
    replace (match pressed inp with
             | Some b' => button_eqb GenerateAISummary b'
             | None => false
             end) with false
      by (destruct (pressed inp) as [[] |]; try reflexivity; congruence).
    now apply narration_idle. }
  destruct (pressed inp) as [[] |] eqn:Hp;
    try (apply Hidle; discriminate).
  clear Hidle.
  unfold button_pressed. unfold bind at 1 2. unfold emit at 1. unfold ret at 1.
  cbn [session shown]. rewrite Hp. cbn [button_eqb].
  unfold bind at 1. unfold emit at 1. cbn [session shown].
  unfold bind at 1. unfold read_attr at 1. cbn [session shown].
  destruct (Session.full_address (session w)) as [name |] eqn:Hname.
  2: { rewrite <- app_assoc. apply narration_unreadable; auto. }
  unfold bind at 1. unfold read_attr at 1. cbn [session shown].
  destruct (Session.df (session w)) as [df |] eqn:Hdf.
  2: { rewrite <- app_assoc. apply narration_unreadable; auto. }
  destruct (generate_ai_summary_shape name df) as (r & evs & Hu & Hr).
  pose proof (Hu (World (session w) [])) as Hu0.
  unfold bind at 1. rewrite Hu. cbn [session shown].
  destruct r as [text | e].
  - destruct Hr as [[Hk' _] | (_ & prompt & -> & ->)]; [ congruence | ].
    unfold update_session. cbn [session shown].
    repeat rewrite <- app_assoc. cbn [app].
    apply narration_stored with (name := name) (df := df); auto.
    rewrite Hu0. reflexivity.
  - destruct Hr as (_ & -> & _). rewrite app_nil_r, <- app_assoc.
    apply narration_raised with (name := name) (df := df); auto.
Qed.

Lemma run_parts inp s :
  run secrets env inp s
  = bind (analyze_site env inp)
      (fun _ => bind (report_section secrets env inp)
                  (fun _ => summary_section))
      (World s (heading inp)).
Proof. unfold run. now rewrite script_after_heading. Qed.

Lemma summary_section_draws w :
  summary_section w
  = (Ret tt,
     World (session w)
       (shown w ++ match Session.summary (session w) with
                   | Some text => [st_markdown text]
                   | None => []
                   end)).
Proof.
  unfold summary_section, bind, get_session, emit, ret.
  destruct (Session.summary (session w)); [ reflexivity | ].
  rewrite app_nil_r. now destruct w.
Qed.

Lemma consistent_set_summary text s :
  has (Session.df s) = true -> consistent s = true ->
  consistent (Session.set_summary text s) = true.
Proof.
  unfold consistent. cbn. intros ->. cbn.
  rewrite andb_true_r. now intros ->%andb_true_iff%proj1.
Qed.

Lemma consistent_located lat lon name s :
  consistent s = true ->
  consistent (Session.Build (Some lat) (Some lon) (Some name)
                (Session.df s) (Session.summary s)) = true.
Proof.
  unfold consistent. cbn [Session.lat Session.lon Session.full_address
                          Session.df Session.summary].
  destruct (Session.df s), (Session.summary s); cbn; auto.
Qed.

Lemma report_section_consistent inp w :
  consistent (session w) = true ->
  consistent (session (snd (report_section secrets env inp w))) = true.
Proof.
  intros Hc. destruct (Session.df (session w)) as [df |] eqn:Hdf.
  2: { now rewrite report_section_absent. }
  rewrite (report_section_present inp w Hdf). unfold bind.
  destruct (report_head_within df w) as (evs & _ & _ & Hs & _).
  destruct (report_head df w) as [[[] | e] w1]; cbn [snd] in *;
    [ | now rewrite <- Hs ].
  pose proof (summary_control_narration inp w1) as Hn.
  destruct (summary_control secrets env inp w1) as [r w2].
  inversion Hn; subst; cbn [snd session]; rewrite <- ?Hs; auto.
  apply consistent_set_summary; [ | exact Hc ].
  rewrite Hdf. reflexivity.
Qed.

Lemma run_consistent inp s :
  consistent s = true ->
  consistent (session (snd (run secrets env inp s))) = true.
Proof.
  intros Hc. rewrite run_parts. unfold bind at 1.
  pose proof (analyze_site_analysis inp (World s (heading inp))) as Ha.
  destruct (analyze_site env inp (World s (heading inp))) as [r w1].
  assert (Hc1 : consistent (session w1) = true).
  { inversion Ha; subst; cbn [session]; auto.
    - destruct (Session.summary s); reflexivity.
    - now apply consistent_located. }
  destruct r as [[] | e]; [ | exact Hc1 ].
  unfold bind.
  pose proof (report_section_consistent inp w1 Hc1) as Hc2.
  destruct (report_section secrets env inp w1) as [[[] | e] w2];
    cbn [snd] in *; [ | exact Hc2 ].
  rewrite summary_section_draws. exact Hc2.
Qed.

End Shapes.

(** X1.  In every session that starts empty, whatever the user does and
    whatever the services answer, after each run (also one that stopped on
    an exception) the session state holds the coordinates and the display
    name whenever it holds a report, and holds a report whenever it holds a
    narrative text. *)
Theorem session_stays_consistent {RT : Runtime}
    (secrets : list (string * string))
    (steps : list (services * interaction)) :
  Forall (fun r => consistent (session (snd r)) = true)
         (runs secrets steps Session.initial).
Proof.
  assert (H : forall s, consistent s = true ->
            Forall (fun r => consistent (session (snd r)) = true)
                   (runs secrets steps s)).
  { induction steps as [| [env inp] steps IH]; intros s Hc; cbn [runs].
    - constructor.
    - pose proof (run_consistent secrets env inp s Hc) as Hc'.
      constructor; [ exact Hc' | now apply IH ]. }
  apply H. reflexivity.
Qed.

(* ===================================================================== *)
(** * A run that no button caused *)
(* ===================================================================== *)

Section Redraw.
Context {RT : Runtime}.
Variable secrets : list (string * string).
Variable env : services.




End Redraw.



(* ===================================================================== *)
(** * The report on the page *)
(* ===================================================================== *)

Section Drawn.
Context {RT : Runtime}.
Variable secrets : list (string * string).
Variable env : services.

Lemma render_completed inp w w' df lat lon :
  bind (report_section secrets env inp) (fun _ => summary_section) w
  = (Ret tt, w') ->
  Session.df (session w') = Some df ->
  Session.lat (session w') = Some lat ->
  Session.lon (session w') = Some lon ->
  exists after,
    shown w'
    = (shown w ++ report_events df lat lon ++ summary_subheader :: after)%list.
Proof.
  intros Hrun Hdf Hlat Hlon.
  apply bind_returns in Hrun. destruct Hrun as ([] & w2 & Hreport & Hsum).
  rewrite summary_section_draws in Hsum. injection Hsum as <-.
  cbn [session shown] in *.
  destruct (Session.df (session w)) as [df' |] eqn:Hdf'.
  2: { rewrite (report_section_absent secrets env inp w Hdf') in Hreport.
       injection Hreport as <-. congruence. }
  rewrite (report_section_present secrets env inp w Hdf') in Hreport.
  apply bind_returns in Hreport.
  destruct Hreport as ([] & w1 & Hhead & Hcontrol).
  destruct (report_head_within df' w) as (evs & _ & _ & Hs & _).
  rewrite Hhead in Hs. cbn [snd] in Hs.
  pose proof (summary_control_narration secrets env inp w1) as Hn.
  rewrite Hcontrol in Hn.
  assert (Hsame : Session.df (session w2) = Session.df (session w) /\
                  Session.lat (session w2) = Session.lat (session w) /\
                  Session.lon (session w2) = Session.lon (session w)).
  { inversion Hn; subst; cbn [session]; rewrite <- Hs; auto. }
  destruct Hsame as (Edf & Elat & Elon).
  rewrite Edf, Hdf' in Hdf. injection Hdf as ->.
  rewrite Elat in Hlat. rewrite Elon in Hlon.
  rewrite (report_head_located df w Hlat Hlon) in Hhead.
  injection Hhead as <-.
  inversion Hn; subst; cbn [session shown];
    repeat rewrite <- app_assoc; cbn [app]; eexists; reflexivity.
Qed.

End Drawn.

(** X3.  A run that reaches its end has drawn the report the session holds
    when it ends, whether the report was fetched in this run or in an
    earlier one: for a report with events the count, the table, a map of
    every event followed by the analysed location and the download button
    for that same frame; for a report without events the information
    message and a map of the analysed location alone. *)
Theorem completed_run_draws_the_report {RT : Runtime}
    (secrets : list (string * string)) (env : services)
    (inp : interaction) (s : Session.t)
    (df : DataFrame) (lat lon : float) :
  fst (run secrets env inp s) = Ret tt ->
  Session.df (session (snd (run secrets env inp s))) = Some df ->
  Session.lat (session (snd (run secrets env inp s))) = Some lat ->
  Session.lon (session (snd (run secrets env inp s))) = Some lon ->
  exists before after,
    shown (snd (run secrets env inp s))
    = (before ++ report_events df lat lon ++ summary_subheader :: after)%list.
Proof.
  rewrite run_parts. intros Hret Hdf Hlat Hlon.
  destruct (bind (analyze_site env inp) _ (World s (heading inp)))
    as [r w'] eqn:Hrun.
  cbn [fst snd] in *. subst r.
  apply bind_returns in Hrun. destruct Hrun as ([] & w1 & _ & Hrender).
  destruct (render_completed secrets env inp w1 Hrender Hdf Hlat Hlon) as (after & H).
  exists (shown w1), after. exact H.
Qed.

Lemma completed_run_draws_the_report_witness :
  exists before after,
    shown (snd (run (RT := reference_runtime) some_keys calm_services
                  (press AnalyzeSite) Session.initial))
    = (before
       ++ report_events two_records
            (S754_finite false 5266687521612321 (-47))
            (S754_finite true 8590904076262285 (-46))
       ++ summary_subheader :: after)%list.
Proof.
  apply (completed_run_draws_the_report (RT := reference_runtime) some_keys
           calm_services (press AnalyzeSite) Session.initial);
    reflexivity.
Defined.

(* ===================================================================== *)
(** * Exceptions that are not caught *)
(* ===================================================================== *)

Section Uncaught.
Context {RT : Runtime}.
Variable secrets : list (string * string).
Variable env : services.

Lemma uniform_unique A (m : M A) r evs r' evs' :
  uniform m r evs -> uniform m r' evs' -> r = r' /\ evs = evs'.
Proof.
  intros H H'. specialize (H (World Session.initial [])).
  rewrite (H' (World Session.initial [])) in H. now injection H.
Qed.

Lemma geocode_address_malformed address r entry others e :
  http_get env (geocode_url address) = Ret r ->
  raise_for_status r = Ret tt ->
  json r = Ret (PList (entry :: others)) ->
  coordinate entry "lat" = Raise e \/
  (exists lat, coordinate entry "lat" = Ret lat /\
               coordinate entry "lon" = Raise e) ->
  is_RequestException e = false ->
  uniform (geocode_address env address) (Raise e)
    [requests_get (geocode_url address) 10].
Proof.
  intros Hget Hstatus Hjson Hbad He w.
  unfold geocode_address, get. unfold try_except, bind, emit, lift.
  cbn [session shown fst snd]. rewrite Hget. cbn [session shown fst snd].
  rewrite Hstatus. cbn [session shown fst snd]. rewrite Hjson.
  cbn [session shown fst snd].
  cbn [truthy obind getindex nth_error]. unfold coordinate in Hbad.
  destruct Hbad as [Hlat | (lat & Hlat & Hlon)].
  - rewrite Hlat, He. reflexivity.
  - rewrite Hlat, Hlon, He. reflexivity.
Qed.

Lemma append_earthquakes_malformed good fields bad rest e earthquakes :
  Forall2 feature_has good fields ->
  earthquake_of bad = Raise e ->
  append_earthquakes (good ++ bad :: rest) earthquakes = Raise e.
Proof.
  intros Hgood Hbad. revert earthquakes.
  induction Hgood as [| x y good fields Hx _ IH]; intros earthquakes;
    cbn [app append_earthquakes].
  - rewrite Hbad. reflexivity.
  - rewrite (earthquake_of_feature Hx). cbn [obind]. apply IH.
Qed.

End Uncaught.

(** X4.  In a run caused by the Analyze Site button, when the first match
    of the geocoder lacks a coordinate, or carries one that [float]
    refuses, the exception is not one that [geocode_address] catches: the
    run stops there with that exception: [st.error] is not called, nothing
    is stored, and neither the report nor the narrative that the session
    may hold is drawn. *)
Theorem malformed_match_stops_the_run {RT : Runtime}
    (secrets : list (string * string)) (env : services)
    (inp : interaction) (s : Session.t)
    (r : response) (entry : pyval) (others : list pyval) (e : exn) :
  pressed inp = Some AnalyzeSite ->
  http_get env (geocode_url (address_box inp)) = Ret r ->
  raise_for_status r = Ret tt ->
  json r = Ret (PList (entry :: others)) ->
  coordinate entry "lat" = Raise e \/
  (exists lat, coordinate entry "lat" = Ret lat /\
               coordinate entry "lon" = Raise e) ->
  is_RequestException e = false ->
  run secrets env inp s
  = (Raise e,
     World s (heading inp
              ++ [st_button "Analyze Site"; st_spinner "Analyzing...";
                  requests_get (geocode_url (address_box inp)) 10])).
Proof.
  intros Hp Hget Hstatus Hjson Hbad He.
  assert (Hu : uniform (geocode_address env (address_box inp)) (Raise e)
                 [requests_get (geocode_url (address_box inp)) 10])
    by (eapply geocode_address_malformed; eassumption).
  rewrite run_parts. unfold bind at 1.
  rewrite (analyze_site_geocode_raises inp (World s (heading inp)) Hp Hu).
  reflexivity.
Qed.

Lemma malformed_match_stops_the_run_witness :
  run (RT := reference_runtime) some_keys incomplete_geocoder
    (press AnalyzeSite) analysed_session
  = (Raise (Exn KeyError "'lat'"),
     World analysed_session
       (heading (press AnalyzeSite)
        ++ [st_button "Analyze Site"; st_spinner "Analyzing...";
            requests_get (geocode_url (address_box (press AnalyzeSite))) 10])).
Proof.
  apply (malformed_match_stops_the_run (RT := reference_runtime) some_keys
           incomplete_geocoder (press AnalyzeSite) analysed_session
           (r := ok_response
                   (PList [PDict [("lon", PStr "-122.0840897");
                                  ("display_name", PStr "Mountain View")]]))
           (entry := PDict [("lon", PStr "-122.0840897");
                            ("display_name", PStr "Mountain View")])
           (others := []));
    try reflexivity.
  left. reflexivity.
Defined.

(** X5.  When the geocoder answers with an accepted status and a body that
    is not JSON, [response.json()] raises inside the [try] block: an
    exception of the [RequestException] family is shown as a geocoding
    failure and the function returns [None] three times; any other
    exception leaves the function, with nothing shown. *)
Theorem undecodable_match_is_reported {RT : Runtime} (env : services)
    (address : string) (r : response) (e : exn) (w : world) :
  http_get env (geocode_url address) = Ret r ->
  raise_for_status r = Ret tt ->
  json r = Raise e ->
  geocode_address env address w
  = if is_RequestException e then
      (Ret (None, None, PNone),
       World (session w)
         (shown w ++ [requests_get (geocode_url address) 10;
                      st_error ("Geocoding API failed: " ++ exn_str e)]))
    else
      (Raise e,
       World (session w) (shown w ++ [requests_get (geocode_url address) 10])).
Proof.
  intros Hget Hstatus Hjson.
  unfold geocode_address, get. unfold try_except, bind, emit, lift.
  cbn [session shown fst snd]. rewrite Hget. cbn [session shown fst snd].
  rewrite Hstatus. cbn [session shown fst snd]. rewrite Hjson.
  cbn [session shown fst snd].
  destruct (is_RequestException e); cbn [session shown ret];
    now rewrite <- ?app_assoc.
Qed.

Lemma undecodable_match_is_reported_witness :
  geocode_address (RT := reference_runtime) undecodable_services
    "1600 Amphitheatre Parkway" (World Session.initial [])
  = (Ret (None, None, PNone),
     World Session.initial
       [requests_get (geocode_url "1600 Amphitheatre Parkway") 10;
        st_error "Geocoding API failed: Expecting value: line 1 column 1 (char 0)"]).
Proof.
  exact (undecodable_match_is_reported (RT := reference_runtime)
           undecodable_services "1600 Amphitheatre Parkway"
           (r := undecodable)
           (e := Exn JSONDecodeError "Expecting value: line 1 column 1 (char 0)")
           (World Session.initial []) eq_refl eq_refl eq_refl).
Defined.

(** X6.  The same for the catalogue: a body that is not JSON is shown as a
    failure of the USGS request and gives an empty report when the
    exception is of the [RequestException] family, and leaves the function
    otherwise. *)
Theorem undecodable_catalogue_is_reported {RT : Runtime} (env : services)
    (lat lon : float) (radius_km : Z) (r : response) (e : exn) (w : world) :
  http_get env (usgs_url lat lon radius_km) = Ret r ->
  raise_for_status r = Ret tt ->
  json r = Raise e ->
  get_nearby_earthquakes env lat lon radius_km w
  = if is_RequestException e then
      (Ret [],
       World (session w)
         (shown w ++ [requests_get (usgs_url lat lon radius_km) 10;
                      st_error ("USGS Earthquake API failed: " ++ exn_str e)]))
    else
      (Raise e,
       World (session w)
         (shown w ++ [requests_get (usgs_url lat lon radius_km) 10])).
Proof.
  intros Hget Hstatus Hjson.
  unfold get_nearby_earthquakes, get. unfold try_except, bind, emit, lift.
  cbn [session shown fst snd]. rewrite Hget. cbn [session shown fst snd].
  rewrite Hstatus. cbn [session shown fst snd]. rewrite Hjson.
  cbn [session shown fst snd].
  cbn [obind].
  destruct (is_RequestException e); cbn [session shown ret];
    now rewrite <- ?app_assoc.
Qed.

Lemma undecodable_catalogue_is_reported_witness :
  get_nearby_earthquakes (RT := reference_runtime) undecodable_services
    f37_25 fm121_5 100 (World Session.initial [])
  = (Ret [],
     World Session.initial
       [requests_get (usgs_url f37_25 fm121_5 100) 10;
        st_error "USGS Earthquake API failed: Expecting value: line 1 column 1 (char 0)"]).
Proof.
  exact (undecodable_catalogue_is_reported (RT := reference_runtime)
           undecodable_services f37_25 fm121_5 100
           (r := undecodable)
           (e := Exn JSONDecodeError "Expecting value: line 1 column 1 (char 0)")
           (World Session.initial []) eq_refl eq_refl eq_refl).
Defined.

(** X7.  The report is all or nothing: when a feature of the catalogue's
    answer cannot be read (a key or a coordinate is missing, the time is
    out of range), the features before it being well formed, the exception
    of that feature leaves [get_nearby_earthquakes]: no record is returned,
    not even those of the features before it, and no error is shown. *)
Theorem malformed_feature_spoils_the_report {RT : Runtime} (env : services)
    (lat lon : float) (radius_km : Z) (r : response) (body : pyval)
    (good : list pyval) (fields : list feature_fields)
    (bad : pyval) (rest : list pyval) (e : exn) (w : world) :
  http_get env (usgs_url lat lon radius_km) = Ret r ->
  raise_for_status r = Ret tt ->
  json r = Ret body ->
  getitem body "features" = Ret (PList (good ++ bad :: rest)) ->
  Forall2 feature_has good fields ->
  earthquake_of bad = Raise e ->
  is_RequestException e = false ->
  get_nearby_earthquakes env lat lon radius_km w
  = (Raise e,
     World (session w)
       (shown w ++ [requests_get (usgs_url lat lon radius_km) 10])).
Proof.
  intros Hget Hstatus Hjson Hfeatures Hgood Hbad He.
  unfold get_nearby_earthquakes, get. unfold try_except, bind, emit, lift.
  cbn [session shown fst snd]. rewrite Hget. cbn [session shown fst snd].
  rewrite Hstatus. cbn [session shown fst snd]. rewrite Hjson.
  cbn [session shown fst snd].
  cbn [obind]. rewrite Hfeatures. cbn [obind iterate].
  rewrite (append_earthquakes_malformed bad rest [] Hgood Hbad), He.
  reflexivity.
Qed.

Lemma malformed_feature_spoils_the_report_witness :
  get_nearby_earthquakes (RT := reference_runtime) shapeless_catalogue
    f37_25 fm121_5 100 (World Session.initial [])
  = (Raise (Exn KeyError "'geometry'"),
     World Session.initial [requests_get (usgs_url f37_25 fm121_5 100) 10]).
Proof.
  apply (malformed_feature_spoils_the_report (RT := reference_runtime)
           shapeless_catalogue f37_25 fm121_5 100
           (r := ok_response shapeless_collection)
           (body := shapeless_collection)
           (good := [feature "5 km NE of San Jose, CA" (PFloat f1_75)
                       1700000000000 fm121_5 f37_25 f8])
           (fields := [Fields (PStr "5 km NE of San Jose, CA") (PFloat f1_75)
                         1700000000000 (PFloat fm121_5) (PFloat f37_25)])
           shapeless_feature [] (World Session.initial []));
    try reflexivity.
  repeat constructor; unfold feature_has; simpl;
    do 3 eexists; repeat split; try reflexivity; lia.
Defined.

(* ===================================================================== *)
(** * A fetch that is interrupted *)
(* ===================================================================== *)

Section Interrupted.
Context {RT : Runtime}.
Variable secrets : list (string * string).
Variable env : services.

(** A resolution shows the request and nothing else. *)
Lemma geocode_address_resolved_quietly address lat lon name :
  (forall w, fst (geocode_address env address w) = Ret (Some lat, Some lon, name)) ->
  uniform (geocode_address env address) (Ret (Some lat, Some lon, name))
    [requests_get (geocode_url address) 10].
Proof.
  intros H. destruct (geocode_address_shape env address)
    as (r & evs & Hu & _ & _ & Hr).
  pose proof (H (World Session.initial [])) as H0. rewrite Hu in H0.
  cbn [fst] in H0. subst r. subst evs. exact Hu.
Qed.

(** An exception that leaves the Fetcher leaves it after the request, with
    nothing else shown. *)
Lemma get_nearby_earthquakes_raised lat lon radius_km e :
  (forall w, fst (get_nearby_earthquakes env lat lon radius_km w) = Raise e) ->
  uniform (get_nearby_earthquakes env lat lon radius_km) (Raise e)
    [requests_get (usgs_url lat lon radius_km) 10].
Proof.
  intros H. destruct (get_nearby_earthquakes_shape env lat lon radius_km)
    as (r & evs & Hu & _ & _ & Hr).
  pose proof (H (World Session.initial [])) as H0. rewrite Hu in H0.
  cbn [fst] in H0. subst r. destruct Hr as [_ ->]. exact Hu.
Qed.

End Interrupted.

(** X8.  In a run caused by the Analyze Site button in which the address is
    resolved to coordinates different from zero, when an exception leaves
    [get_nearby_earthquakes] (one that is not a [RequestException]): the run
    stops with it after the two requests; the latitude, the longitude and
    the display name of the new address are already in the session, while
    the report and the narrative are still those the session held; neither
    [st.error] nor [st.success] is called and nothing is drawn. *)
Theorem interrupted_fetch_keeps_the_old_report {RT : Runtime}
    (secrets : list (string * string)) (env : services)
    (inp : interaction) (s : Session.t)
    (lat lon : float) (name : pyval) (e : exn) :
  pressed inp = Some AnalyzeSite ->
  (forall w, fst (geocode_address env (address_box inp) w)
             = Ret (Some lat, Some lon, name)) ->
  truthy_float lat = true -> truthy_float lon = true ->
  (forall w, fst (get_nearby_earthquakes env lat lon 100 w) = Raise e) ->
  run secrets env inp s
  = (Raise e,
     World (Session.Build (Some lat) (Some lon) (Some name)
              (Session.df s) (Session.summary s))
       (heading inp
        ++ [st_button "Analyze Site"; st_spinner "Analyzing...";
            requests_get (geocode_url (address_box inp)) 10;
            requests_get (usgs_url lat lon 100) 10])).
Proof.
  intros Hp Hg Hlat Hlon Hf.
  pose proof (geocode_address_resolved_quietly env _ Hg) as Hgu.
  pose proof (get_nearby_earthquakes_raised env _ _ _ Hf) as Hfu.
  rewrite run_parts. unfold bind at 1.
  rewrite (analyze_site_fetch_raises inp (World s (heading inp))
             Hp Hgu Hlat Hlon Hfu).
  reflexivity.
Qed.

Lemma interrupted_fetch_keeps_the_old_report_witness :
  run (RT := reference_runtime) some_keys featureless_catalogue
    (press AnalyzeSite) analysed_session
  = (Raise (Exn KeyError "'features'"),
     World (Session.Build
              (Some (S754_finite false 5266687521612321 (-47)))
              (Some (S754_finite true 8590904076262285 (-46)))
              (Some (PStr "Google Building 41, 1600, Amphitheatre Parkway, Mountain View, California, 94043, United States"))
              (Some two_records) None)
       (heading (press AnalyzeSite)
        ++ [st_button "Analyze Site"; st_spinner "Analyzing...";
            requests_get (geocode_url (address_box (press AnalyzeSite))) 10;
            requests_get
              (usgs_url (S754_finite false 5266687521612321 (-47))
                 (S754_finite true 8590904076262285 (-46)) 100) 10])).
Proof.
  apply (interrupted_fetch_keeps_the_old_report (RT := reference_runtime)
           some_keys featureless_catalogue (press AnalyzeSite)
           analysed_session);
    reflexivity.
Defined.

(* ===================================================================== *)
(** * The calls of a run *)
(* ===================================================================== *)

Section Calls.
Context {RT : Runtime}.
Variable secrets : list (string * string).
Variable env : services.

Lemma render_events_no_generation evs :
  each is_render_event evs -> filter is_generate_content evs = [].
Proof.
  induction 1 as [| ev evs Hev _ IH]; simpl; [ reflexivity | ].
  rewrite IH. destruct ev; try reflexivity; discriminate Hev.
Qed.

Lemma report_events_render evs :
  each is_report_event evs -> each is_render_event evs.
Proof.
  apply each_weaken. intros ev H. unfold is_render_event. now rewrite H.
Qed.

Lemma analysis_events_no_generation evs :
  each is_analysis_event evs -> filter is_generate_content evs = [].
Proof.
  induction 1 as [| ev evs Hev _ IH]; simpl; [ reflexivity | ].
  rewrite IH. destruct ev; try reflexivity; discriminate Hev.
Qed.

Lemma markdown_no_call (text : option string) :
  filter is_request
    match text with Some t => [st_markdown t] | None => [] end = [] /\
  filter is_generate_content
    match text with Some t => [st_markdown t] | None => [] end = [].
Proof. destruct text; split; reflexivity. Qed.

(** The calls of the handler of the Analyze Site button. *)
Lemma analyze_site_calls inp w :
  exists evs,
    shown (snd (analyze_site env inp w)) = (shown w ++ evs)%list /\
    filter is_generate_content evs = [] /\
    (pressed inp <> Some AnalyzeSite -> filter is_request evs = []) /\
    (pressed inp = Some AnalyzeSite ->
       filter is_request evs
       = [requests_get (geocode_url (address_box inp)) 10] \/
       exists lat lon,
         filter is_request evs
         = [requests_get (geocode_url (address_box inp)) 10;
            requests_get (usgs_url lat lon 100) 10]).
Proof.
  destruct (analyze_site_within env inp w) as (evs & Hs & Hev & _).
  exists evs. split; [ exact Hs | ].
  split; [ now apply analysis_events_no_generation | ].
  pose proof (analyze_site_analysis env inp w) as Ha.
  destruct (analyze_site env inp w) as [r w1]. cbn [snd] in Hs.
  inversion Ha; subst; cbn [shown] in Hs; apply app_inv_head in Hs;
    subst evs; cbn [filter is_request];
    (split; [ intros; try reflexivity; congruence | intros; try congruence ]);
    match goal with H : filter is_request _ = _ |- _ => rewrite H end;
    [ left; reflexivity | right .. ]; eexists; eexists; reflexivity.
Qed.

(** The calls of the rest of the script. *)
Lemma render_calls inp w :
  exists evs,
    shown (snd (bind (report_section secrets env inp)
                  (fun _ => summary_section) w))
    = (shown w ++ evs)%list /\
    filter is_request evs = [] /\
    (pressed inp <> Some GenerateAISummary ->
       filter is_generate_content evs = []) /\
    (filter is_generate_content evs = [] \/
     exists prompt,
       filter is_generate_content evs = [generate_content model_name prompt]).
Proof.
  unfold bind at 1.
  destruct (Session.df (session w)) as [df |] eqn:Hdf.
  2: { rewrite (report_section_absent secrets env inp w Hdf).
       rewrite summary_section_draws. cbn [snd shown].
       eexists. split; [ reflexivity | ].
       destruct (markdown_no_call (Session.summary (session w))) as [-> ->].
       auto. }
  rewrite (report_section_present secrets env inp w Hdf). unfold bind at 1.
  destruct (report_head_within df w) as (evs1 & Hs1 & He1 & _ & _).
  apply report_events_render in He1.
  pose proof (render_events_no_request He1) as Hr1.
  pose proof (render_events_no_generation He1) as Hg1.
  destruct (report_head df w) as [[[] | e] w1]; cbn [snd] in Hs1.
  2: { cbn [snd]. exists evs1. auto. }
  pose proof (summary_control_narration secrets env inp w1) as Hn.
  destruct (summary_control secrets env inp w1) as [r w2].
  inversion Hn; subst; try rewrite summary_section_draws;
    cbn [snd shown session]; rewrite Hs1; repeat rewrite <- app_assoc;
    (eexists; split; [ reflexivity | ]);
    rewrite !filter_app, ?Hr1, ?Hg1;
    cbn [filter is_request is_generate_content disabled_warning app];
    try match goal with
        | |- context [match ?t with Some _ => _ | None => _ end] =>
            destruct (markdown_no_call t) as [-> ->]
        end;
    (split; [ reflexivity | ]);
    (split; [ intros; try reflexivity; congruence | ]);
    first [ left; reflexivity | right; eexists; reflexivity ].
Qed.

End Calls.

(** X9.  What a run calls, whatever the session holds and whatever the
    services answer.  HTTP requests are sent only in a run caused by the
    Analyze Site button: the geocoding request for the text of the address
    box, alone or followed by one request to the catalogue with a radius of
    100 km, each with a timeout of 10 seconds and none of them repeated.
    The model is called only in a run caused by the Generate AI Summary
    button, and at most once. *)
Theorem calls_of_a_run {RT : Runtime}
    (secrets : list (string * string)) (env : services)
    (inp : interaction) (s : Session.t) :
  (pressed inp <> Some AnalyzeSite ->
     filter is_request (shown (snd (run secrets env inp s))) = []) /\
  (pressed inp = Some AnalyzeSite ->
     filter is_request (shown (snd (run secrets env inp s)))
     = [requests_get (geocode_url (address_box inp)) 10] \/
     exists lat lon,
       filter is_request (shown (snd (run secrets env inp s)))
       = [requests_get (geocode_url (address_box inp)) 10;
          requests_get (usgs_url lat lon 100) 10]) /\
  (pressed inp <> Some GenerateAISummary ->
     filter is_generate_content (shown (snd (run secrets env inp s))) = []) /\
  (filter is_generate_content (shown (snd (run secrets env inp s))) = [] \/
   exists prompt,
     filter is_generate_content (shown (snd (run secrets env inp s)))
     = [generate_content "gemini-1.5-flash-latest" prompt]).
Proof.
  assert (H : exists evs evs',
            shown (snd (run secrets env inp s))
            = (heading inp ++ evs ++ evs')%list /\
            filter is_generate_content evs = [] /\
            (pressed inp <> Some AnalyzeSite -> filter is_request evs = []) /\
            (pressed inp = Some AnalyzeSite ->
               filter is_request evs
               = [requests_get (geocode_url (address_box inp)) 10] \/
               exists lat lon,
                 filter is_request evs
                 = [requests_get (geocode_url (address_box inp)) 10;
                    requests_get (usgs_url lat lon 100) 10]) /\
            filter is_request evs' = [] /\
            (pressed inp <> Some GenerateAISummary ->
               filter is_generate_content evs' = []) /\
            (filter is_generate_content evs' = [] \/
             exists prompt,
               filter is_generate_content evs'
               = [generate_content model_name prompt])).
  { rewrite run_parts. unfold bind at 1.
    destruct (analyze_site_calls env inp (World s (heading inp)))
      as (evs & Hs & Hg & Hn & Hp).
    destruct (analyze_site env inp (World s (heading inp))) as [[[] | e] w1];
      cbn [snd shown] in Hs.
    - destruct (render_calls secrets env inp w1) as (evs' & Hs' & Hr' & Hn' & Hg').
      exists evs, evs'. rewrite Hs', Hs, <- app_assoc. repeat split; auto.
    - exists evs, []. cbn [snd]. rewrite Hs, app_nil_r. repeat split; auto. }
  destruct H as (evs & evs' & -> & Hg & Hn & Hp & Hr' & Hn' & Hg').
  rewrite !filter_app. cbn [heading filter is_request is_generate_content app].
  rewrite Hg, Hr', !app_nil_r. cbn [app].
  repeat split; auto.
Qed.

(* ===================================================================== *)
(** * The handler of the summary button *)
(* ===================================================================== *)

Section Generation.
Context {RT : Runtime}.
Variable secrets : list (string * string).
Variable env : services.



End Generation.





(* ===================================================================== *)
(** * A match without a display name *)
(* ===================================================================== *)

Section Nameless.
Context {RT : Runtime}.
Variable secrets : list (string * string).
Variable env : services.

Lemma dict_get_missing data key x e :
  coordinate data key = Ret x ->
  forall key', getitem data key' = Raise e -> dict_get data key' = Ret PNone.
Proof.
  unfold coordinate. intros Hx key' Hmissing.
  destruct data; try discriminate Hx. cbn [getitem dict_get] in *.
  destruct (lookup key' d); [ discriminate Hmissing | reflexivity ].
Qed.

Lemma geocode_address_nameless address r entry others lat lon e :
  http_get env (geocode_url address) = Ret r ->
  raise_for_status r = Ret tt ->
  json r = Ret (PList (entry :: others)) ->
  coordinate entry "lat" = Ret lat ->
  coordinate entry "lon" = Ret lon ->
  getitem entry "display_name" = Raise e ->
  uniform (geocode_address env address) (Ret (Some lat, Some lon, PNone))
    [requests_get (geocode_url address) 10].
Proof.
  intros Hget Hstatus Hjson Hlat Hlon Hname w.
  pose proof (dict_get_missing entry "lat" Hlat "display_name" Hname) as Hd.
  unfold coordinate in Hlat, Hlon.
  unfold geocode_address, get. unfold try_except, bind, emit, lift.
  cbn [session shown fst snd]. rewrite Hget. cbn [session shown fst snd].
  rewrite Hstatus. cbn [session shown fst snd]. rewrite Hjson.
  cbn [session shown fst snd truthy obind getindex nth_error].
  rewrite Hlat, Hlon, Hd. reflexivity.
Qed.

End Nameless.

(** X12.  A match of the geocoder that carries no display name is analysed
    like any other: [data.get] gives [None] for the name, the handler tests
    the coordinates only, so the catalogue is asked, [None] is stored as
    the display name of the session, and the success message reads
    "Successfully analyzed: **None**". *)
Theorem nameless_match_is_analysed {RT : Runtime}
    (secrets : list (string * string)) (env : services)
    (inp : interaction) (s : Session.t)
    (r : response) (entry : pyval) (others : list pyval)
    (lat lon : float) (e : exn) (df : DataFrame) :
  pressed inp = Some AnalyzeSite ->
  http_get env (geocode_url (address_box inp)) = Ret r ->
  raise_for_status r = Ret tt ->
  json r = Ret (PList (entry :: others)) ->
  coordinate entry "lat" = Ret lat ->
  coordinate entry "lon" = Ret lon ->
  getitem entry "display_name" = Raise e ->
  truthy_float lat = true -> truthy_float lon = true ->
  (forall w, fst (get_nearby_earthquakes env lat lon 100 w) = Ret df) ->
  session (snd (run secrets env inp s))
  = Session.Build (Some lat) (Some lon) (Some PNone) (Some df)
      (Session.summary s) /\
  In (requests_get (usgs_url lat lon 100) 10)
     (shown (snd (run secrets env inp s))) /\
  In (st_success "Successfully analyzed: **None**")
     (shown (snd (run secrets env inp s))).
Proof.
  intros Hp Hget Hstatus Hjson Hlat Hlon Hname Htlat Htlon Hf.
  assert (Hgu : uniform (geocode_address env (address_box inp))
                  (Ret (Some lat, Some lon, PNone))
                  [requests_get (geocode_url (address_box inp)) 10])
    by (eapply geocode_address_nameless; eassumption).
  destruct (get_nearby_earthquakes_returned env _ _ _ Hf) as (evs' & Hfu).
  assert (Hp' : pressed inp <> Some GenerateAISummary)
    by (rewrite Hp; discriminate).
  rewrite (run_after_analysis secrets env inp s
             (analyze_site_resolved inp (World s (heading inp))
                Hp Hgu Htlat Htlon Hfu)).
  cbn [session shown].
  match goal with
  | |- context [bind (report_section secrets env inp) _ ?W] =>
      destruct (render_within secrets env inp Hp' W)
        as (evs'' & Hs & _ & Hsess & _)
  end.
  rewrite Hs, <- Hsess. cbn [session shown]. split; [ reflexivity | ].
  split; apply in_app_iff; left; apply in_app_iff; right; right; right;
    cbn [app]; right.
  - left. reflexivity.
  - right. apply in_app_iff. right. left. reflexivity.
Qed.

Lemma nameless_match_is_analysed_witness :
  session (snd (run (RT := reference_runtime) some_keys nameless_geocoder
                  (press AnalyzeSite) Session.initial))
  = Session.Build (Some (S754_finite false 5242471441235968 (-47)))
      (Some (S754_finite true 8549802417586176 (-46)))
      (Some PNone) (Some two_records)
      (Session.summary Session.initial) /\
  In (requests_get
        (usgs_url (S754_finite false 5242471441235968 (-47))
           (S754_finite true 8549802417586176 (-46)) 100) 10)
     (shown (snd (run (RT := reference_runtime) some_keys nameless_geocoder
                    (press AnalyzeSite) Session.initial))) /\
  In (st_success "Successfully analyzed: **None**")
     (shown (snd (run (RT := reference_runtime) some_keys nameless_geocoder
                    (press AnalyzeSite) Session.initial))).
Proof.
  apply (nameless_match_is_analysed (RT := reference_runtime) some_keys
           nameless_geocoder (press AnalyzeSite) Session.initial
           (r := ok_response (PList [PDict [("lat", PStr "37.25");
                                            ("lon", PStr "-121.5")]]))
           (entry := PDict [("lat", PStr "37.25"); ("lon", PStr "-121.5")])
           (others := []) (e := Exn KeyError "'display_name'"));
    reflexivity.
Defined.

(* ===================================================================== *)
(** * The control of the narrative *)
(* ===================================================================== *)

Section Offered.
Context {RT : Runtime}.
Variable secrets : list (string * string).
Variable env : services.

Lemma report_head_drawing df :
  within (each is_drawing_event) eq anything (report_head df).
Proof. unfold report_head, draw_report. repeat step. Qed.

Lemma each_not_in ok evs ev :
  each ok evs -> ok ev = false -> ~ In ev evs.
Proof.
  intros Hall Hev Hin. unfold each in Hall. rewrite Forall_forall in Hall.
  specialize (Hall ev Hin). congruence.
Qed.

Lemma markdown_is_no_control (text : option string) ev :
  is_markdown ev = false ->
  ~ In ev match text with Some t => [st_markdown t] | None => [] end.
Proof.
  intros Hev. destruct text; [ | intros [] ].
  intros [<- | []]. discriminate Hev.
Qed.

(** Which control of the narrative the rest of the script draws, when it
    reaches its end. *)
Lemma render_control inp w w' :
  bind (report_section secrets env inp) (fun _ => summary_section) w
  = (Ret tt, w') ->
  exists evs,
    shown w' = (shown w ++ evs)%list /\
    (In (st_button "Generate AI Summary") evs <->
     API_KEY_CONFIGURED secrets = true /\
     has (Session.df (session w')) = true) /\
    (In disabled_warning evs <->
     API_KEY_CONFIGURED secrets = false /\
     has (Session.df (session w')) = true).
Proof.
  intros Hrun.
  apply bind_returns in Hrun. destruct Hrun as ([] & w2 & Hreport & Hsum).
  rewrite summary_section_draws in Hsum. injection Hsum as <-.
  cbn [session shown].
  pose proof (markdown_is_no_control (Session.summary (session w2))
                (st_button "Generate AI Summary") eq_refl) as Hmb.
  pose proof (markdown_is_no_control (Session.summary (session w2))
                disabled_warning eq_refl) as Hmw.
  destruct (Session.df (session w)) as [df |] eqn:Hdf.
  2: { rewrite (report_section_absent secrets env inp w Hdf) in Hreport.
       injection Hreport as <-. eexists. split; [ reflexivity | ].
       rewrite Hdf. cbn [has].
       split; (split; [ intros H; contradiction | intros [_ H]; discriminate H ]). }
  rewrite (report_section_present secrets env inp w Hdf) in Hreport.
  apply bind_returns in Hreport.
  destruct Hreport as ([] & w1 & Hhead & Hcontrol).
  destruct (report_head_drawing df w) as (evs1 & Hs1 & He1 & Hses & _).
  rewrite Hhead in Hs1, Hses. cbn [snd] in Hs1, Hses.
  pose proof (each_not_in (st_button "Generate AI Summary") He1 eq_refl)
    as Hnb.
  pose proof (each_not_in disabled_warning He1 eq_refl) as Hnw.
  pose proof (summary_control_narration secrets env inp w1) as Hn.
  rewrite Hcontrol in Hn.
  inversion Hn; subst; cbn [session shown Session.set_summary Session.df] in *;
    try rewrite <- Hses in Hmb; try rewrite <- Hses in Hmw;
    rewrite <- Hses, Hdf; cbn [has];
    match goal with H : API_KEY_CONFIGURED secrets = _ |- _ => rewrite H end;
    rewrite Hs1; repeat rewrite <- app_assoc;
    (eexists; split; [ reflexivity | ]);
    rewrite !in_app_iff; cbn [In]; unfold disabled_warning;
    split; split; try (intros [? ?]; discriminate); auto;
    intros H; repeat (destruct H as [H | H]); try discriminate H;
      try contradiction; exfalso; auto.
Qed.

End Offered.

(** X13.  In a run that reaches its end, the Generate AI Summary button is
    drawn exactly when the credential is configured and the session holds a
    report when the run ends, and the warning that the AI features are
    disabled is drawn exactly when the credential is missing and the
    session holds a report. *)
Theorem summary_control_is_offered {RT : Runtime}
    (secrets : list (string * string)) (env : services)
    (inp : interaction) (s : Session.t) :
  fst (run secrets env inp s) = Ret tt ->
  (In (st_button "Generate AI Summary") (shown (snd (run secrets env inp s)))
   <-> API_KEY_CONFIGURED secrets = true /\
       has (Session.df (session (snd (run secrets env inp s)))) = true) /\
  (In disabled_warning (shown (snd (run secrets env inp s)))
   <-> API_KEY_CONFIGURED secrets = false /\
       has (Session.df (session (snd (run secrets env inp s)))) = true).
Proof.
  rewrite run_parts. intros Hret.
  destruct (bind (analyze_site env inp) _ (World s (heading inp)))
    as [r w'] eqn:Hrun.
  cbn [fst snd] in *. subst r.
  apply bind_returns in Hrun. destruct Hrun as ([] & w1 & Ha & Hrender).
  destruct (analyze_site_within env inp (World s (heading inp)))
    as (evs_a & Hsa & Hea & _).
  rewrite Ha in Hsa. cbn [snd shown] in Hsa.
  destruct (render_control secrets env inp w1 Hrender)
    as (evs & Hs & Hbutton & Hwarning).
  rewrite Hs, Hsa. rewrite <- Hbutton, <- Hwarning.
  pose proof (each_not_in (st_button "Generate AI Summary") Hea eq_refl)
    as Hnb.
  pose proof (each_not_in disabled_warning Hea eq_refl) as Hnw.
  rewrite !in_app_iff. cbn [heading In]. unfold disabled_warning in *.
  split; split; auto;
    intros H; repeat (destruct H as [H | H]); try discriminate H;
      try contradiction; auto.
Qed.

Lemma summary_control_is_offered_witness :
  (In (st_button "Generate AI Summary")
      (shown (snd (run (RT := reference_runtime) some_keys calm_services
                     (press AnalyzeSite) Session.initial)))
   <-> API_KEY_CONFIGURED some_keys = true /\
       has (Session.df (session (snd (run (RT := reference_runtime) some_keys
                                        calm_services (press AnalyzeSite)
                                        Session.initial)))) = true) /\
  (In disabled_warning
      (shown (snd (run (RT := reference_runtime) some_keys calm_services
                     (press AnalyzeSite) Session.initial)))
   <-> API_KEY_CONFIGURED some_keys = false /\
       has (Session.df (session (snd (run (RT := reference_runtime) some_keys
                                        calm_services (press AnalyzeSite)
                                        Session.initial)))) = true).
Proof.
  apply (summary_control_is_offered (RT := reference_runtime) some_keys
           calm_services (press AnalyzeSite) Session.initial).
  reflexivity.
Defined.

(* ===================================================================== *)
(** * A failed lookup over an earlier report *)
(* ===================================================================== *)



(* ===================================================================== *)
(** * The outcome of an analysis on the page *)
(* ===================================================================== *)



(** X16.  In a run caused by the Analyze Site button, when the address is
    resolved but the latitude or the longitude is zero, [if lat and lon]
    takes the resolution for a failure: after the geocoding request the
    script only draws what the session already held; the catalogue is not
    asked, neither a success nor an error message is shown, and the session
    state is left as it was. *)
Theorem zero_coordinate_is_silently_dropped {RT : Runtime}
    (secrets : list (string * string)) (env : services)
    (inp : interaction) (s : Session.t)
    (lat lon : float) (name : pyval) :
  pressed inp = Some AnalyzeSite ->
  (forall w, fst (geocode_address env (address_box inp) w)
             = Ret (Some lat, Some lon, name)) ->
  truthy_float lat && truthy_float lon = false ->
  session (snd (run secrets env inp s)) = s /\
  exists drawn,
    each is_render_event drawn /\
    shown (snd (run secrets env inp s))
    = (heading inp
       ++ [st_button "Analyze Site"; st_spinner "Analyzing...";
           requests_get (geocode_url (address_box inp)) 10]
       ++ drawn)%list.
Proof.
  intros Hp Hg Hzero.
  pose proof (geocode_address_resolved_quietly env _ Hg) as Hgu.
  assert (Hp' : pressed inp <> Some GenerateAISummary)
    by (rewrite Hp; discriminate).
  rewrite (run_after_analysis secrets env inp s
             (analyze_site_zero_coordinate inp (World s (heading inp))
                Hp Hgu Hzero)).
  match goal with
  | |- context [bind (report_section secrets env inp) _ ?W] =>
      destruct (render_within secrets env inp Hp' W)
        as (drawn & Hs & Hev & Hsess & _)
  end.
  rewrite Hs, <- Hsess. cbn [session shown]. split; [ reflexivity | ].
  exists drawn. split; [ exact Hev | ].
  repeat (rewrite <- app_assoc; cbn [app]). reflexivity.
Qed.

Lemma zero_coordinate_is_silently_dropped_witness :
  session (snd (run (RT := reference_runtime) some_keys meridian_geocoder
                  (press AnalyzeSite) analysed_session))
  = analysed_session /\
  exists drawn,
    each is_render_event drawn /\
    shown (snd (run (RT := reference_runtime) some_keys meridian_geocoder
                  (press AnalyzeSite) analysed_session))
    = (heading (press AnalyzeSite)
       ++ [st_button "Analyze Site"; st_spinner "Analyzing...";
           requests_get (geocode_url (address_box (press AnalyzeSite))) 10]
       ++ drawn)%list.
Proof.
  apply (zero_coordinate_is_silently_dropped (RT := reference_runtime)
           some_keys meridian_geocoder (press AnalyzeSite) analysed_session
           (lat := S754_finite false 7244870351806739 (-47))
           (lon := S754_zero false)
           (name := PStr "Prime Meridian, Greenwich, London, United Kingdom"));
    reflexivity.
Defined.

(* ===================================================================== *)
(** * A catalogue with no feature *)
(* ===================================================================== *)

Section Quiet.
Context {RT : Runtime}.
Variable env : services.


End Quiet.


